(** * Sentry glue code: GitLab blame fetcher, note notification, signed links

    A shallow embedding of

      - [src/sentry/integrations/gitlab/blame.py]
      - [src/sentry/notifications/notifications/activity/note.py]
      - [src/sentry/utils/linksign.py]

    Python strings are [string]s (byte strings; every separator the code looks
    for is ASCII), dictionaries with string keys are [gmap string _], Python
    integers are [Z], and a Python call that may raise returns a [Result]. *)

From Stdlib Require Import ZArith List String Ascii Bool Lia.
From stdpp Require Import base option list gmap strings.

Local Open Scope string_scope.
Local Open Scope Z_scope.

(** Appending to a string literal computes under [simpl]. *)
#[local] Arguments String.append !s1 s2 : simpl nomatch.

(** ** Exceptions and results *)

(** The exception classes the three files raise, catch or let through.
    [ApiError] carries its [code]; [ApiRateLimitedError] is a subclass of
    [ApiError]; [SignatureExpired] is a subclass of [BadSignature]. *)
Inductive exn : Type :=
  | RuntimeError (msg : string)
  | KeyError (key : string)
  | ValueError
  | IndexError
  | BadSignature
  | SignatureExpired
  | ApiError (code : option Z) (msg : string)
  | ApiRateLimitedError (msg : string)
  | OtherError (name : string).

Inductive Result (A : Type) : Type :=
  | Ok (a : A)
  | Raise (e : exn).
Arguments Ok {A} a.
Arguments Raise {A} e.

(** ** Python string methods used by the sources *)

Module PyStr.

(** [s.count(c)] for a one-character [c]. *)
Fixpoint count (c : ascii) (s : string) : Z :=
  match s with
  | EmptyString => 0
  | String x s' => (if Ascii.eqb x c then 1 else 0) + count c s'
  end.

(** Whether the one-character separator occurs in [s] ([c in s]). *)
Fixpoint mem (c : ascii) (s : string) : bool :=
  match s with
  | EmptyString => false
  | String x s' => Ascii.eqb x c || mem c s'
  end.

(** One split at the last occurrence of [c]: [None] when [c] does not occur. *)
Fixpoint rsplit1 (c : ascii) (s : string) : option (string * string) :=
  match s with
  | EmptyString => None
  | String x s' =>
      match rsplit1 c s' with
      | Some (a, b) => Some (String x a, b)
      | None => if Ascii.eqb x c then Some (EmptyString, s') else None
      end
  end.

(** [s.rsplit(c, maxsplit)]: at most [maxsplit] splits, taken from the right. *)
Fixpoint rsplit (c : ascii) (maxsplit : nat) (s : string) : list string :=
  match maxsplit with
  | O => [s]
  | S n =>
      match rsplit1 c s with
      | None => [s]
      | Some (a, b) => rsplit c n a ++ [b]
      end
  end.

(** [s.split(c)]: the segments between the occurrences of [c]. *)
Fixpoint split (c : ascii) (s : string) : list string :=
  match s with
  | EmptyString => [EmptyString]
  | String x s' =>
      if Ascii.eqb x c then EmptyString :: split c s'
      else
        match split c s' with
        | seg :: segs => String x seg :: segs
        | [] => [String x EmptyString]
        end
  end.

(** [sep.join(parts)]. *)
Fixpoint join (sep : string) (parts : list string) : string :=
  match parts with
  | [] => EmptyString
  | [p] => p
  | p :: ps => p ++ sep ++ join sep ps
  end.

(** [s.startswith(p)]. *)
Fixpoint startswith (p s : string) : bool :=
  match p, s with
  | EmptyString, _ => true
  | String a p', String b s' => Ascii.eqb a b && startswith p' s'
  | String _ _, EmptyString => false
  end.

(** The scan of [s.replace(old, new)] for a non-empty [old]: occurrences are
    taken left to right and do not overlap; [skip] counts the characters of
    the occurrence just replaced that are still to be passed over. *)
Fixpoint replace_scan (old new : string) (skip : nat) (s : string) : string :=
  match s with
  | EmptyString => EmptyString
  | String x s' =>
      match skip with
      | S k => replace_scan old new k s'
      | O =>
          if startswith old s
          then new ++ replace_scan old new (Nat.pred (String.length old)) s'
          else String x (replace_scan old new O s')
      end
  end.

(** With the empty [old], Python puts [new] before every character and at
    the end. *)
Fixpoint replace_empty (new : string) (s : string) : string :=
  match s with
  | EmptyString => new
  | String x s' => new ++ String x (replace_empty new s')
  end.

(** [s.replace(old, new)]. *)
Definition replace (old new s : string) : string :=
  match old with
  | EmptyString => replace_empty new s
  | String _ _ => replace_scan old new O s
  end.

End PyStr.

(** ** note.py: the note notification *)

Module Note.

(** The activity of a note: [activity.data] is a dictionary; the note text
    is its entry ["text"]. *)
Record Activity : Type := { data : gmap string string }.

(** [NoteActivityNotification.get_description]: [(text, None, {})], or the
    [KeyError] of [self.activity.data["text"]]. *)
Definition get_description (activity : Activity)
  : Result (string * option string * gmap string string) :=
  match data activity !! "text" with
  | None => Raise (KeyError "text")
  | Some t =>
      let text := PyStr.replace "}" "}}" (PyStr.replace "{" "{{" t) in
      Ok (text, None, ∅)
  end.

(** The description in the spec's words: every ['{'] doubled, every ['}']
    doubled, every other character kept as it is. *)
Fixpoint escape_braces (s : string) : string :=
  match s with
  | EmptyString => EmptyString
  | String x s' =>
      if Ascii.eqb x "{" then String x (String x (escape_braces s'))
      else if Ascii.eqb x "}" then String x (String x (escape_braces s'))
      else String x (escape_braces s')
  end.

(** What is left of a text once its braces are taken out. *)
Fixpoint without_braces (s : string) : string :=
  match s with
  | EmptyString => EmptyString
  | String x s' =>
      if Ascii.eqb x "{" || Ascii.eqb x "}" then without_braces s'
      else String x (without_braces s')
  end.

End Note.

(** ** linksign.py: signed links *)

Module Linksign.

(** The [user] argument of [generate_signed_link]: an object that has the
    attribute [is_authenticated] (and an [id]), or anything else, which is
    taken as the user id itself. *)
Inductive UserArg : Type :=
  | UserObject (is_authenticated : bool) (id : Z)
  | UserId (id : Z).

(** What [process_signature] reads of a request: [request.path] and the
    query parameters [request.GET]. *)
Record Request : Type := { path : string; GET : gmap string string }.

(** Calls to the collaborators of [process_signature], in call order. *)
Inductive Event : Type :=
  | Unsign (signed_data : string) (max_age : Z)
  | CaptureException (e : exn)
  | GetUser (user_id : Z).

(** [except signing.BadSignature]: the class and its subclass. *)
Definition is_BadSignature (e : exn) : bool :=
  match e with
  | BadSignature | SignatureExpired => true
  | _ => false
  end.

Definition is_ValueError (e : exn) : bool :=
  match e with
  | ValueError => true
  | _ => false
  end.

(** [not sig]: [None] and the empty string are false. *)
Definition falsy (s : option string) : bool :=
  match s with
  | None => true
  | Some EmptyString => true
  | Some (String _ _) => false
  end.

(** [max_age=60 * 60 * 24 * 10] *)
Definition default_max_age : Z := 60 * 60 * 24 * 10.

(** What the two functions call outside this file. *)
Class Collaborators : Type := {
  (** the user objects of the user service, and
      [user_service.get_user(user_id=...)] *)
  User : Type;
  get_user : Z -> Result (option User);
  (** [options.get("system.url-prefix")] *)
  url_prefix : string;
  (** [django.urls.reverse(viewname, args=args, kwargs=kwargs)] *)
  reverse : string -> list string -> gmap string string -> Result string;
  (** [get_local_region().to_url(path)] *)
  to_url : string -> string;
  (** [urllib.parse.urlencode] *)
  urlencode : list (string * string) -> string;
  (** [sentry.utils.numbers] *)
  base36_encode : Z -> string;
  base36_decode : string -> Result Z;
  (** Django's signer for the salt ["sentry-link-signature"]: the keyed MAC
      of a value ([Signer.signature]) and the base-62 codec of its
      timestamps *)
  signature : string -> string;
  b62_encode : Z -> string;
  b62_decode : string -> Result Z
}.

Section WithCollaborators.

Context `{Collaborators}.

(** [django.core.signing.Signer.sign], with [sep = ":"]. *)
Definition Signer_sign (value : string) : string :=
  value ++ ":" ++ signature value.

(** [django.core.signing.Signer.unsign] *)
Definition Signer_unsign (signed_value : string) : Result string :=
  match PyStr.rsplit1 ":" signed_value with
  | None => Raise BadSignature
  | Some (value, sig) =>
      if String.eqb sig (signature value) then Ok value else Raise BadSignature
  end.

(** [django.core.signing.TimestampSigner.sign]; [now] is [int(time.time())]. *)
Definition TimestampSigner_sign (now : Z) (value : string) : string :=
  Signer_sign (value ++ ":" ++ b62_encode now).

(** [django.core.signing.TimestampSigner.unsign]; [now] is [time.time()],
    read in whole seconds. *)
Definition TimestampSigner_unsign (now : Z) (value : string) (max_age : Z)
  : Result string :=
  match Signer_unsign value with
  | Raise e => Raise e
  | Ok result =>
      match PyStr.rsplit ":" 1 result with
      | [value; timestamp] =>
          match b62_decode timestamp with
          | Raise e => Raise e
          | Ok timestamp =>
              let age := now - timestamp in
              if max_age <? age then Raise SignatureExpired else Ok value
          end
      | _ => Raise ValueError
      end
  end.

(** [generate_signed_link]; [now] is the clock read by the signer. *)
Definition generate_signed_link (now : Z) (user : UserArg) (viewname : string)
    (referrer : option string) (args : list string)
    (kwargs : gmap string string) : Result string :=
  let resolved :=
    match user with
    | UserObject is_authenticated id =>
        if negb is_authenticated
        then Raise (RuntimeError "Need an authenticated user to sign a link.")
        else Ok id
    | UserId id => Ok id
    end in
  match resolved with
  | Raise e => Raise e
  | Ok user_id =>
      match reverse viewname args kwargs with
      | Raise e => Raise e
      | Ok path =>
          let item := url_prefix ++ "|" ++ path ++ "|" ++ base36_encode user_id in
          let signature :=
            PyStr.join ":" (tail (PyStr.rsplit ":" 2 (TimestampSigner_sign now item))) in
          let signed_link :=
            to_url path ++ "?_=" ++ base36_encode user_id ++ ":" ++ signature in
          if falsy referrer then Ok signed_link
          else
            Ok (signed_link ++ "&" ++
                urlencode [("referrer", default EmptyString referrer)])
      end
  end.

(** [find_signature] *)
Definition find_signature (request : Request) : option string :=
  GET request !! "_".

(** The test of line 59: [not sig or sig.count(":") < 2]. *)
Definition malformed (sig : option string) : bool :=
  falsy sig || (PyStr.count ":" (default EmptyString sig) <? 2).

(** [process_signature]: the value returned or the exception raised,
    together with the calls made to the signer, to [capture_exception] and to
    the user service. *)
Definition process_signature (now : Z) (request : Request) (max_age : Z)
  : Result (option User) * list Event :=
  let sig := find_signature request in
  if malformed sig then (Ok None, [])
  else
    let sig := default EmptyString sig in
    let request_path := path request in
    let signed_data := url_prefix ++ "|" ++ request_path ++ "|" ++ sig in
    match TimestampSigner_unsign now signed_data max_age with
    | Raise e =>
        if is_BadSignature e
        then (Ok None, [Unsign signed_data max_age; CaptureException e])
        else (Raise e, [Unsign signed_data max_age])
    | Ok data =>
        match PyStr.rsplit "|" 2 data with
        | [_; signed_path; user_id] =>
            if negb (String.eqb signed_path (path request))
            then (Ok None, [Unsign signed_data max_age])
            else
              match base36_decode user_id with
              | Raise e =>
                  if is_ValueError e
                  then (Ok None, [Unsign signed_data max_age])
                  else (Raise e, [Unsign signed_data max_age])
              | Ok uid =>
                  match get_user uid with
                  | Raise e =>
                      if is_ValueError e
                      then (Ok None, [Unsign signed_data max_age; GetUser uid])
                      else (Raise e, [Unsign signed_data max_age; GetUser uid])
                  | Ok user => (Ok user, [Unsign signed_data max_age; GetUser uid])
                  end
              end
        | _ => (Raise ValueError, [Unsign signed_data max_age])
        end
    end.

(** The requests of the spec's failure cases, for a [_] parameter that has a
    last [":"]-segment [mac] in front of which stands [payload]:
    - a tampered signature: [mac] is not the MAC of what it is appended to;
    - an expired one: the MAC is right and the timestamp in front of it is
      more than [max_age] before [now];
    - a wrong path: the MAC is the one of the same payload under another
      path, which the signer tells from the one under the path of the
      request; or the signer accepts the parameter, and the path found in
      the signed data is not the path of the request. *)
Inductive invalid_link (now : Z) (request : Request) (max_age : Z) : Prop :=
  | tampered (payload mac : string) :
      find_signature request = Some (payload ++ ":" ++ mac) ->
      PyStr.mem ":" mac = false ->
      mac <> signature (url_prefix ++ "|" ++ path request ++ "|" ++ payload) ->
      invalid_link now request max_age
  | expired (payload ts mac : string) (timestamp : Z) :
      find_signature request = Some (payload ++ ":" ++ ts ++ ":" ++ mac) ->
      PyStr.mem ":" ts = false ->
      PyStr.mem ":" mac = false ->
      mac = signature (url_prefix ++ "|" ++ path request ++ "|" ++ payload ++ ":" ++ ts) ->
      b62_decode ts = Ok timestamp ->
      max_age < now - timestamp ->
      invalid_link now request max_age
  | signed_for_other_path (payload signed_path : string) :
      find_signature request =
        Some (payload ++ ":" ++ signature (url_prefix ++ "|" ++ signed_path ++ "|" ++ payload)) ->
      PyStr.mem ":" (signature (url_prefix ++ "|" ++ signed_path ++ "|" ++ payload)) = false ->
      signature (url_prefix ++ "|" ++ signed_path ++ "|" ++ payload)
        <> signature (url_prefix ++ "|" ++ path request ++ "|" ++ payload) ->
      invalid_link now request max_age
  | wrong_path (sig data prefix signed_path user_id : string) :
      find_signature request = Some sig ->
      TimestampSigner_unsign now (url_prefix ++ "|" ++ path request ++ "|" ++ sig) max_age
        = Ok data ->
      PyStr.rsplit "|" 2 data = [prefix; signed_path; user_id] ->
      signed_path <> path request ->
      invalid_link now request max_age.

End WithCollaborators.

End Linksign.

(** ** blame.py: the GitLab blame fetcher *)

Module Blame.

(** Values of the untyped dictionaries the code passes around (the [extra] of
    the log records, the request parameters, a repository's [config]). *)
Inductive PyVal : Type :=
  | VNone
  | VStr (s : string)
  | VInt (z : Z).

(** [MINIMUM_REQUESTS = 100] *)
Definition MINIMUM_REQUESTS : Z := 100.

(** [GitLabCommitResponse]: the [commit] dictionary of a hunk; a value may be
    null ([None]). *)
Abbreviation GitLabCommitResponse := (gmap string (option string)) (only parsing).

(** [commit.get(key)]: [None] for a key that is missing and for a null. *)
Definition dict_get (commit : GitLabCommitResponse) (key : string) : option string :=
  match commit !! key with
  | Some value => value
  | None => None
  end.

(** [GitLabFileBlameResponseItem]; [item_commit] is [item.get("commit")]. *)
Record GitLabFileBlameResponseItem : Type := {
  item_commit : option GitLabCommitResponse;
  lines : list string
}.

Record Repository : Type := { name : string; config : gmap string PyVal }.

Record SourceLineInfo : Type := {
  lineno : Z;
  path : string;
  ref : string;
  repo : Repository
}.

(** [committedDate] is a datetime in UTC, kept as its position on the time
    line (datetimes of one zone compare as these numbers do). *)
Record CommitInfo : Type := {
  commitId : string;
  committedDate : Z;
  commitMessage : option string;
  commitAuthorName : option string;
  commitAuthorEmail : option string
}.

(** [FileBlameInfo]: the fields of the [SourceLineInfo] it was made from, and
    the commit. *)
Record FileBlameInfo : Type := { source_line : SourceLineInfo; commit : CommitInfo }.

Record GitLabRateLimitInfo : Type := {
  limit : Z;
  remaining : Z;
  reset : Z;
  used : Z
}.

(** What a client call answers: a [SequenceApiResponse] (a list of hunks) or
    a response of another class; both carry the response headers. *)
Inductive ApiResponse : Type :=
  | SequenceApiResponse (items : list GitLabFileBlameResponseItem)
      (headers : gmap string string)
  | OtherApiResponse (nonempty : bool) (headers : gmap string string).

(** [if response:] on a response that is there: an empty one is false. *)
Definition response_truthy (r : ApiResponse) : bool :=
  match r with
  | SequenceApiResponse items _ =>
      match items with [] => false | _ :: _ => true end
  | OtherApiResponse nonempty _ => nonempty
  end.

(** The part of [BaseApiClient] that the fetcher calls. [St] is the state of
    the client and of the service behind it: [get] and [set_cache] change
    it. *)
Class ApiClient (St : Type) : Type := {
  get_cache_key : string -> string -> string;
  check_cache : St -> string -> option ApiResponse;
  get : St -> string -> gmap string PyVal -> Result ApiResponse * St;
  set_cache : St -> string -> ApiResponse -> Z -> St
}.

Inductive Level : Type := Info | Warning | Exception.

(** What the fetcher leaves behind besides its result: log records and
    metric increments, in order. *)
Inductive Event : Type :=
  | Log (level : Level) (msg : string) (extra : gmap string PyVal)
  | MetricIncr (key : string).

(** The log records among the events. *)
Definition is_log (ev : Event) : Prop :=
  match ev with
  | Log _ _ _ => True
  | MetricIncr _ => False
  end.

(** The increment of the metric of line 64, which the rate limit guard makes
    before it raises. *)
Definition guard_metric : Event :=
  MetricIncr "integrations.gitlab.get_blame_for_files.rate_limit".

(** The client and what was logged so far. *)
Record World (St : Type) : Type := { client : St; log : list Event }.
Arguments client {St} w.
Arguments log {St} w.

(** [except ApiError]: the class and its subclass. *)
Definition is_ApiError (e : exn) : bool :=
  match e with
  | ApiError _ _ | ApiRateLimitedError _ => true
  | _ => false
  end.

(** [error.code]; [ApiRateLimitedError] has the class attribute [code = 429]. *)
Definition error_code (e : exn) : option Z :=
  match e with
  | ApiError code _ => code
  | ApiRateLimitedError _ => Some 429
  | _ => None
  end.

(** [max(xs, key=key)] for a non-empty [x :: xs]: a later element replaces
    the running maximum only when its key is strictly greater. *)
Fixpoint max_by {A : Type} (key : A -> Z) (best : A) (xs : list A) : A :=
  match xs with
  | [] => best
  | x :: xs' => if key best <? key x then max_by key x xs' else max_by key best xs'
  end.

(** Computations over the world that return or raise. *)
Definition M (St A : Type) : Type := World St -> Result A * World St.

Definition ret {St A} (a : A) : M St A := fun w => (Ok a, w).

Definition raise {St A} (e : exn) : M St A := fun w => (Raise e, w).

Definition bind {St A B} (m : M St A) (k : A -> M St B) : M St B :=
  fun w =>
    match m w with
    | (Ok a, w') => k a w'
    | (Raise e, w') => (Raise e, w')
    end.

(** [try: body / except <caught> as e: handler / else: orelse] *)
Definition try_except_else {St A B} (body : M St A) (caught : exn -> bool)
    (handler : exn -> M St B) (orelse : A -> M St B) : M St B :=
  fun w =>
    match body w with
    | (Ok a, w') => orelse a w'
    | (Raise e, w') => if caught e then handler e w' else (Raise e, w')
    end.

Definition tell {St} (evs : list Event) : M St unit :=
  fun w => (Ok tt, {| client := client w; log := log w ++ evs |}).

Notation "'let*' x ':=' m 'in' k" := (bind m (fun x => k))
  (at level 10, x name, m at level 100, k at level 200, only parsing).

(** What the fetcher calls outside this file, the client apart. *)
Class GitLab : Type := {
  (** [isodate.parse_datetime(s).replace(tzinfo=timezone.utc)]: [None] when
      the call raises *)
  parse_datetime : string -> option Z;
  (** [sentry.integrations.gitlab.utils] *)
  get_rate_limit_info_from_response : ApiResponse -> option GitLabRateLimitInfo;
  next_window : GitLabRateLimitInfo -> string;
  (** [GitLabApiClientPath.blame.format(project=..., path=...)] *)
  blame_path : option PyVal -> string -> string;
  (** [urllib.parse.quote(s, safe="")] and [json.dumps] *)
  quote : string -> string;
  json_dumps : gmap string PyVal -> string
}.

Section WithClient.

Context {St : Type} `{ApiClient St} `{GitLab}.

(** [_create_commit_from_blame]: the commit, if the response has what it
    takes, and the records logged. [not commit_id] and [not committed_date]
    hold of [None] and of the empty string. *)
Definition _create_commit_from_blame (commit : option GitLabCommitResponse)
    (extra : gmap string PyVal) : option CommitInfo * list Event :=
  match commit with
  | None => (None, [Log Warning "get_blame_for_files.no_commit_in_response" extra])
  | Some commit =>
      if bool_decide (commit = ∅)
      then (None, [Log Warning "get_blame_for_files.no_commit_in_response" extra])
      else
        match dict_get commit "id" with
        | None | Some EmptyString =>
            (None, [Log Warning "get_blame_for_files.invalid_commit_response"
                      (<["missing_property" := VStr "id"]> extra)])
        | Some commit_id =>
            match dict_get commit "committed_date" with
            | None | Some EmptyString =>
                (None, [Log Warning "get_blame_for_files.invalid_commit_response"
                          (<["commit_id" := VStr commit_id]>
                             (<["missing_property" := VStr "committed_date"]> extra))])
            | Some committed_date =>
                match parse_datetime committed_date with
                | Some date =>
                    (Some {| commitId := commit_id;
                             commitMessage := dict_get commit "message";
                             commitAuthorName := dict_get commit "author_name";
                             commitAuthorEmail := dict_get commit "author_email";
                             committedDate := date |}, [])
                | None =>
                    (None, [Log Exception "get_blame_for_files.invalid_commit_response"
                              extra])
                end
            end
        end
  end.

(** A value that is missing, null or empty. *)
Definition missing (s : option string) : Prop :=
  s = None \/ s = Some EmptyString.

(** A hunk that lacks a valid commit id or a committed date that parses: it
    has no commit, or the commit has no [id], or no [committed_date], or one
    that [parse_datetime] raises on. *)
Definition lacks_required_info (item : GitLabFileBlameResponseItem) : Prop :=
  match item_commit item with
  | None => True
  | Some commit =>
      missing (dict_get commit "id")
      \/ missing (dict_get commit "committed_date")
      \/ exists date,
           dict_get commit "committed_date" = Some date /\ parse_datetime date = None
  end.

(** Lines 137 and 138: the commits of the hunks, in response order, without
    those that [_create_commit_from_blame] gave up on. *)
Definition commits_with_required_info (response : list GitLabFileBlameResponseItem)
    (extra : gmap string PyVal) : list CommitInfo :=
  let commits :=
    map (fun item => fst (_create_commit_from_blame (item_commit item) extra)) response in
  omap id commits.

(** [_get_commit_info_from_blame_response], with the records logged while
    the hunks were read. *)
Definition _get_commit_info_from_blame_response
    (response : option (list GitLabFileBlameResponseItem))
    (extra : gmap string PyVal) : option CommitInfo * list Event :=
  match response with
  | None => (None, [])
  | Some response =>
      let logged :=
        concat (map (fun item => snd (_create_commit_from_blame (item_commit item) extra))
                  response) in
      match commits_with_required_info response extra with
      | [] => (None, logged)
      | c :: cs => (Some (max_by committedDate c cs), logged)
      end
  end.

(** Lines 83 to 99 of [_fetch_file_blame]: the cached response, or the
    response of the request, which is then cached for 60 seconds. *)
Definition fetch_response (file : SourceLineInfo) (extra : gmap string PyVal)
  : M St ApiResponse :=
  fun w =>
    let project_id := config (repo file) !! "project_id" in
    let encoded_path := quote (path file) in
    let request_path := blame_path project_id encoded_path in
    let params : gmap string PyVal :=
      <["ref" := VStr (ref file)]>
        (<["range[start]" := VInt (lineno file)]>
           (<["range[end]" := VInt (lineno file)]> ∅)) in
    let cache_key := get_cache_key request_path (json_dumps params) in
    let requested :=
      match get (client w) request_path params with
      | (Raise e, st) => (Raise e, {| client := st; log := log w |})
      | (Ok r, st) =>
          (Ok r, {| client := set_cache st cache_key r 60; log := log w |})
      end in
    match check_cache (client w) cache_key with
    | Some response =>
        if response_truthy response
        then
          (Ok response,
           {| client := client w;
              log := log w ++
                [Log Info "sentry.integrations.gitlab.get_blame_for_files.got_cached"
                   extra] |})
        else requested
    | None => requested
    end.

(** [_fetch_file_blame] *)
Definition _fetch_file_blame (file : SourceLineInfo) (extra : gmap string PyVal)
  : M St (option CommitInfo * option GitLabRateLimitInfo) :=
  let* response := fetch_response file extra in
  match response with
  | OtherApiResponse _ _ => raise (ApiError None "Response is not in expected format")
  | SequenceApiResponse items _ =>
      let rate_limit_info := get_rate_limit_info_from_response response in
      let '(commit, logged) := _get_commit_info_from_blame_response (Some items) extra in
      let* _ := tell logged in
      ret (commit, rate_limit_info)
  end.

(** [_create_file_blame_info] *)
Definition _create_file_blame_info (commit : CommitInfo) (file : SourceLineInfo)
  : FileBlameInfo :=
  {| source_line := file; commit := commit |}.

(** [_handle_file_blame_error] *)
Definition _handle_file_blame_error (error : exn) (file : SourceLineInfo)
    (extra : gmap string PyVal) : M St unit :=
  let* _ :=
    if bool_decide (error_code error = Some 429)
    then tell [MetricIncr "sentry.integrations.gitlab.get_blame_for_files.rate_limit"]
    else ret tt in
  tell [Log Exception "get_blame_for_files.api_error"
          (<["repo_name" := VStr (name (repo file))]>
             (<["file_path" := VStr (path file)]>
                (<["branch_name" := VStr (ref file)]>
                   (<["file_lineno" := VInt (lineno file)]> extra))))].

(** What the guard of lines 58 to 75 logs before it raises. *)
Definition rate_limit_events (num_files : nat) (extra : gmap string PyVal)
    (rate_limit_info : GitLabRateLimitInfo) : list Event :=
  [guard_metric;
   Log Exception "get_blame_for_files.rate_limit_too_low"
     (<["num_files" := VInt (Z.of_nat num_files)]>
        (<["remaining_requests" := VInt (remaining rate_limit_info)]>
           (<["total_requests" := VInt (limit rate_limit_info)]>
              (<["next_window" := VStr (next_window rate_limit_info)]> extra))))].

(** The condition of lines 58 to 63. *)
Definition rate_limit_too_low (i num_files : nat)
    (rate_limit_info : option GitLabRateLimitInfo) : bool :=
  match rate_limit_info with
  | None => false
  | Some info =>
      (i =? 0)%nat && (1 <? num_files)%nat
      && (remaining info <? MINIMUM_REQUESTS - Z.of_nat num_files)
  end.

(** The loop of [fetch_file_blames] from index [i] on: [files] are the files
    still to do, [num_files] is [len(files)] of the whole batch, [blames] the
    list built so far. *)
Fixpoint fetch_loop (num_files : nat) (extra : gmap string PyVal) (i : nat)
    (files : list SourceLineInfo) (blames : list FileBlameInfo)
  : M St (list FileBlameInfo) :=
  match files with
  | [] => ret blames
  | file :: rest =>
      let* blames :=
        try_except_else
          (let* fetched := _fetch_file_blame file extra in
           let '(commit, rate_limit_info) := fetched in
           match commit with
           | Some commit =>
               ret ((blames ++ [_create_file_blame_info commit file])%list, rate_limit_info)
           | None => ret (blames, rate_limit_info)
           end)
          is_ApiError
          (fun e => let* _ := _handle_file_blame_error e file extra in ret blames)
          (fun '(blames, rate_limit_info) =>
             if rate_limit_too_low i num_files rate_limit_info
             then
               let* _ :=
                 tell (match rate_limit_info with
                       | Some info => rate_limit_events num_files extra info
                       | None => []
                       end) in
               raise (ApiRateLimitedError "Approaching GitLab API rate limit")
             else ret blames) in
      fetch_loop num_files extra (S i) rest blames
  end.

(** [fetch_file_blames] *)
Definition fetch_file_blames (files : list SourceLineInfo)
    (extra : gmap string PyVal) : M St (list FileBlameInfo) :=
  fetch_loop (length files) extra 0 files [].

End WithClient.

End Blame.

(** ** Stand-ins for the collaborators, for the examples *)

Module Reference.

(** Positional codecs over an alphabet, as [sentry.utils.numbers] and
    Django's [b62_encode] and [b62_decode] have them. *)
Definition BASE36_ALPHABET : string := "0123456789ABCDEFGHIJKLMNOPQRSTUVWXYZ".
Definition BASE62_ALPHABET : string :=
  "0123456789ABCDEFGHIJKLMNOPQRSTUVWXYZabcdefghijklmnopqrstuvwxyz".

Fixpoint encode_digits (alphabet : string) (fuel : nat) (n : Z) (acc : string) : string :=
  match fuel with
  | O => acc
  | S fuel' =>
      if n <=? 0 then acc
      else
        let base := Z.of_nat (String.length alphabet) in
        match String.get (Z.to_nat (n mod base)) alphabet with
        | Some digit => encode_digits alphabet fuel' (n / base) (String digit acc)
        | None => acc
        end
  end.

Definition encode (alphabet : string) (n : Z) : string :=
  if n <=? 0 then String.substring 0 1 alphabet
  else encode_digits alphabet (S (Z.to_nat (Z.log2 n))) n EmptyString.

Fixpoint index_of (c : ascii) (alphabet : string) : option Z :=
  match alphabet with
  | EmptyString => None
  | String x rest =>
      if Ascii.eqb x c then Some 0 else option_map Z.succ (index_of c rest)
  end.

Fixpoint decode_digits (alphabet : string) (s : string) (acc : Z) : Result Z :=
  match s with
  | EmptyString => Ok acc
  | String c s' =>
      match index_of c alphabet with
      | None => Raise ValueError
      | Some d => decode_digits alphabet s' (acc * Z.of_nat (String.length alphabet) + d)
      end
  end.

Definition decode (alphabet : string) (s : string) : Result Z :=
  match s with
  | EmptyString => Raise IndexError
  | String _ _ => decode_digits alphabet s 0
  end.

(** A stand-in for the keyed MAC: the value behind a key, with ['.'] for
    every [':']. *)
Definition mac (value : string) : string :=
  PyStr.replace ":" "." ("secret/" ++ value).

(** The collaborators of the signed links, over a given [reverse]. *)
Definition collaborators_with
    (reverse : string -> list string -> gmap string string -> Result string)
  : Linksign.Collaborators := {|
  Linksign.User := string;
  Linksign.get_user := fun user_id =>
    if user_id =? 0 then Ok None else Ok (Some ("user #" ++ encode "0123456789" user_id));
  Linksign.url_prefix := "https://sentry.example";
  Linksign.reverse := reverse;
  Linksign.to_url := fun path => "https://us.sentry.example" ++ path;
  Linksign.urlencode := fun items =>
    PyStr.join "&" (map (fun kv => fst kv ++ "=" ++ snd kv) items);
  Linksign.base36_encode := encode BASE36_ALPHABET;
  Linksign.base36_decode := decode BASE36_ALPHABET;
  Linksign.signature := mac;
  Linksign.b62_encode := encode BASE62_ALPHABET;
  Linksign.b62_decode := decode BASE62_ALPHABET
|}.

#[export] Instance collaborators : Linksign.Collaborators :=
  collaborators_with (fun viewname _ _ => Ok ("/" ++ viewname ++ "/")).

(** A request for the account settings with the [_] parameter [sig], and the
    parameter of the link signed there for user 42 at 1700000000. *)
Definition request_with (sig : string) : Linksign.Request :=
  {| Linksign.path := "/account-settings/"; Linksign.GET := {[ "_" := sig ]} |}.

Definition signed_parameter : string :=
  "16:1r31eq:secret/https.//sentry.example|/account-settings/|16.1r31eq".

(** A client over a fixed table of answers: it keeps the responses it
    cached and the paths it requested. *)
Record Client : Type := {
  cache : gmap string Blame.ApiResponse;
  requested : list string;
  answers : string -> Result Blame.ApiResponse
}.

#[export] Instance api_client : Blame.ApiClient Client := {|
  Blame.get_cache_key := fun path params => path ++ "?" ++ params;
  Blame.check_cache := fun st key => cache st !! key;
  Blame.get := fun st path _ =>
    (answers st path,
     {| cache := cache st; requested := requested st ++ [path]; answers := answers st |});
  Blame.set_cache := fun st key response _ =>
    {| cache := <[key := response]> (cache st);
       requested := requested st;
       answers := answers st |}
|}.

Definition decimal (s : string) : option Z :=
  match decode "0123456789" s with
  | Ok n => Some n
  | Raise _ => None
  end.

(** Committed dates are written as seconds in the examples; the rate limit
    is read from the four [RateLimit-] headers, which have to be numbers. *)
#[export] Instance gitlab : Blame.GitLab := {|
  Blame.parse_datetime := decimal;
  Blame.get_rate_limit_info_from_response := fun response =>
    let headers :=
      match response with
      | Blame.SequenceApiResponse _ headers => headers
      | Blame.OtherApiResponse _ headers => headers
      end in
    match headers !! "RateLimit-Limit" ≫= decimal,
          headers !! "RateLimit-Remaining" ≫= decimal,
          headers !! "RateLimit-Reset" ≫= decimal,
          headers !! "RateLimit-Observed" ≫= decimal with
    | Some limit, Some remaining, Some reset, Some used =>
        Some {| Blame.limit := limit; Blame.remaining := remaining;
                Blame.reset := reset; Blame.used := used |}
    | _, _, _, _ => None
    end;
  Blame.next_window := fun info => encode "0123456789" (Blame.reset info);
  Blame.blame_path := fun project path =>
    "/projects/" ++
    match project with
    | Some (Blame.VStr s) => s
    | Some (Blame.VInt n) => encode "0123456789" n
    | _ => "None"
    end ++ "/repository/files/" ++ path ++ "/blame";
  Blame.quote := fun s => PyStr.replace "/" "%2F" s;
  Blame.json_dumps := fun params =>
    match params !! "ref", params !! "range[start]" with
    | Some (Blame.VStr ref), Some (Blame.VInt lineno) =>
        "ref=" ++ ref ++ "&line=" ++ encode "0123456789" lineno
    | _, _ => EmptyString
    end
|}.

Definition repository : Blame.Repository :=
  {| Blame.name := "example/repo"; Blame.config := {[ "project_id" := Blame.VInt 7 ]} |}.

Definition file (path : string) (lineno : Z) : Blame.SourceLineInfo :=
  {| Blame.lineno := lineno; Blame.path := path; Blame.ref := "main";
     Blame.repo := repository |}.

Definition hunk (id date : string) : Blame.GitLabFileBlameResponseItem :=
  {| Blame.item_commit := Some {[ "id" := Some id; "committed_date" := Some date ]};
     Blame.lines := [] |}.

Definition rate_limit_headers (remaining : string) : gmap string string :=
  {[ "RateLimit-Limit" := "2000"; "RateLimit-Remaining" := remaining;
     "RateLimit-Reset" := "1700000060"; "RateLimit-Observed" := "1" ]}.

(** The service of the examples: [a.py] has three hunks, two of them of the
    same latest date; [b.py] has hunks without a usable commit; [c.py] has
    none; [d.py] is refused with a 429; every other path is not found. The
    quota left is [remaining]. *)
Definition service (remaining : string) (path : string) : Result Blame.ApiResponse :=
  if String.eqb path "/projects/7/repository/files/a.py/blame" then
    Ok (Blame.SequenceApiResponse
          [hunk "c1" "100"; hunk "c2" "300"; hunk "c3" "300"]
          (rate_limit_headers remaining))
  else if String.eqb path "/projects/7/repository/files/b.py/blame" then
    Ok (Blame.SequenceApiResponse
          [hunk "" "100"; hunk "c5" "yesterday";
           {| Blame.item_commit := None; Blame.lines := [] |}]
          (rate_limit_headers remaining))
  else if String.eqb path "/projects/7/repository/files/c.py/blame" then
    Ok (Blame.SequenceApiResponse [] (rate_limit_headers remaining))
  else if String.eqb path "/projects/7/repository/files/d.py/blame" then
    Raise (ApiRateLimitedError "Too Many Requests")
  else Raise (ApiError (Some 404) "Not Found").

Definition world (remaining : string) : Blame.World Client :=
  {| Blame.client := {| cache := ∅; requested := []; answers := service remaining |};
     Blame.log := [] |}.

End Reference.

(** ** Further notions for the signed links *)

Module LinksignSpec.
Import Linksign.

Section WithCollaborators.

Context `{Collaborators}.

(** A [_] parameter [payload:ts:mac] that the signer accepts on [request] at
    [now]: [mac] is the MAC of the url prefix, the path of the request, the
    payload and the timestamp [ts], which stands for a time [t] not more
    than [max_age] before [now]. *)
Definition accepted_parameter (now : Z) (request : Request) (max_age : Z)
    (payload ts mac : string) (t : Z) : Prop :=
  find_signature request = Some (payload ++ ":" ++ ts ++ ":" ++ mac)
  /\ PyStr.mem ":" ts = false
  /\ PyStr.mem ":" mac = false
  /\ mac = signature (url_prefix ++ "|" ++ path request ++ "|" ++ payload ++ ":" ++ ts)
  /\ b62_decode ts = Ok t
  /\ now - t <= max_age.

End WithCollaborators.

End LinksignSpec.

(** ** Further notions for the blame fetcher *)

Module BlameSpec.
Import Blame.

Section WithClient.

Context {St : Type} `{ApiClient St} `{GitLab}.

(** The request of lines 83 to 87 for a file: its path, its parameters and
    the key it is cached under. *)
Definition request_path (file : SourceLineInfo) : string :=
  blame_path (config (repo file) !! "project_id") (quote (path file)).

Definition request_params (file : SourceLineInfo) : gmap string PyVal :=
  <["ref" := VStr (ref file)]>
    (<["range[start]" := VInt (lineno file)]>
       (<["range[end]" := VInt (lineno file)]> ∅)).

Definition cache_key (file : SourceLineInfo) : string :=
  get_cache_key (request_path file) (json_dumps (request_params file)).

(** The record logged for a file whose request raised an [ApiError]. *)
Definition api_error_record (file : SourceLineInfo) (extra : gmap string PyVal) : Event :=
  Log Exception "get_blame_for_files.api_error"
    (<["repo_name" := VStr (name (repo file))]>
       (<["file_path" := VStr (path file)]>
          (<["branch_name" := VStr (ref file)]>
             (<["file_lineno" := VInt (lineno file)]> extra)))).

(** A commit that was made from the hunk [item]: the hunk has a commit
    with a non-empty [id] and a non-empty [committed_date] that parses, and
    the fields of the commit are those of the hunk. *)
Definition made_from (item : GitLabFileBlameResponseItem) (c : CommitInfo) : Prop :=
  exists d date,
    item_commit item = Some d
    /\ dict_get d "id" = Some (commitId c)
    /\ commitId c <> EmptyString
    /\ dict_get d "committed_date" = Some date
    /\ date <> EmptyString
    /\ parse_datetime date = Some (committedDate c)
    /\ commitMessage c = dict_get d "message"
    /\ commitAuthorName c = dict_get d "author_name"
    /\ commitAuthorEmail c = dict_get d "author_email".

(** Two runs that return or raise the same and leave the client in the same
    state; their logs may differ. *)
Definition agree {A : Type} (run run' : Result A * World St) : Prop :=
  fst run = fst run' /\ client (snd run) = client (snd run').

End WithClient.

End BlameSpec.

(** ** [str.format], which the description of a notification is put through *)

Module PyFormat.

(** Where the scan of a format string stands: in literal text, behind a
    ["{"] or a ["}"] that may be the first of a doubled one, or inside a
    replacement field, [nested] braces deep, of which [field] was read. *)
Inductive state : Type :=
  | Literal
  | Opened
  | Closed
  | InField (nested : nat) (field : string).

(** The text [head] before the result of the rest. *)
Definition emit (head : Result string) (rest : Result string) : Result string :=
  match head with
  | Raise e => Raise e
  | Ok h =>
      match rest with
      | Raise e => Raise e
      | Ok r => Ok (h ++ r)
      end
  end.

(** The scan of [s.format(...)]: ["{{"] and ["}}"] stand for one brace, a
    single ["}"] is a [ValueError], a single ["{"] opens a replacement
    field, which runs to the ["}"] that closes it and is replaced by what
    [fields] gives for it (the lookup of the argument and its formatting,
    which may raise); a field left open is a [ValueError]. *)
Fixpoint scan (fields : string -> Result string) (st : state) (s : string)
  : Result string :=
  match s with
  | EmptyString =>
      match st with
      | Literal => Ok EmptyString
      | Opened | Closed | InField _ _ => Raise ValueError
      end
  | String c s' =>
      match st with
      | Literal =>
          if Ascii.eqb c "{" then scan fields Opened s'
          else if Ascii.eqb c "}" then scan fields Closed s'
          else emit (Ok (String c EmptyString)) (scan fields Literal s')
      | Opened =>
          if Ascii.eqb c "{" then emit (Ok "{") (scan fields Literal s')
          else if Ascii.eqb c "}" then emit (fields EmptyString) (scan fields Literal s')
          else scan fields (InField 0 (String c EmptyString)) s'
      | Closed =>
          if Ascii.eqb c "}" then emit (Ok "}") (scan fields Literal s')
          else Raise ValueError
      | InField nested field =>
          if Ascii.eqb c "{"
          then scan fields (InField (S nested) (field ++ "{")) s'
          else if Ascii.eqb c "}" then
            match nested with
            | O => emit (fields field) (scan fields Literal s')
            | S n => scan fields (InField n (field ++ "}")) s'
            end
          else scan fields (InField nested (field ++ String c EmptyString)) s'
      end
  end.

Definition format (fields : string -> Result string) (s : string) : Result string :=
  scan fields Literal s.

End PyFormat.

(** ** More stand-ins for the examples *)

Module ReferenceMore.
Import Reference.

(** A service that answers every request with a mapping. *)
Definition mapping_world : Blame.World Client :=
  {| Blame.client :=
       {| cache := ∅; requested := [];
          answers := fun _ => Ok (Blame.OtherApiResponse true ∅) |};
     Blame.log := [] |}.

Definition five_files : list Blame.SourceLineInfo :=
  [file "a.py" 3; file "b.py" 1; file "c.py" 2; file "d.py" 1; file "e.py" 4].

(** The blames returned by a run, none if it raised. *)
Definition returned {St : Type}
    (run : Result (list Blame.FileBlameInfo) * Blame.World St)
  : list Blame.FileBlameInfo :=
  match fst run with
  | Ok blames => blames
  | Raise _ => []
  end.

End ReferenceMore.

(** * Properties *)

(** ** Python strings *)

Module PyStrFacts.
Import PyStr.

Lemma count_nonneg (c : ascii) (s : string) : 0 <= count c s.
Proof.
  induction s as [|x s IH]; simpl; [lia|].
  destruct (Ascii.eqb x c); lia.
Qed.

Lemma count_app (c : ascii) (s t : string) :
  count c (s ++ t) = count c s + count c t.
Proof.
  induction s as [|x s IH]; simpl; [reflexivity|].
  rewrite IH. lia.
Qed.

Lemma mem_false_count (c : ascii) (s : string) :
  mem c s = false -> count c s = 0.
Proof.
  induction s as [|x s IH]; simpl; [reflexivity|].
  destruct (Ascii.eqb x c); simpl; [discriminate|].
  intros Hs. rewrite IH by assumption. reflexivity.
Qed.

Lemma mem_app (c : ascii) (s t : string) :
  mem c (s ++ t) = mem c s || mem c t.
Proof.
  induction s as [|x s IH]; simpl; [reflexivity|].
  rewrite IH. apply orb_assoc.
Qed.

(** Without the separator there is nothing to split. *)
Lemma rsplit1_none (c : ascii) (s : string) :
  mem c s = false -> rsplit1 c s = None.
Proof.
  induction s as [|x s IH]; simpl; [reflexivity|].
  destruct (Ascii.eqb x c); simpl; [discriminate|].
  intros Hs. rewrite IH by assumption. reflexivity.
Qed.

(** The last separator is the one before a tail that has none. *)
Lemma rsplit1_last (c : ascii) (a b : string) :
  mem c b = false -> rsplit1 c (a ++ String c b) = Some (a, b).
Proof.
  intros Hb. induction a as [|x a IH]; simpl.
  - rewrite (rsplit1_none c b Hb), Ascii.eqb_refl. reflexivity.
  - rewrite IH. reflexivity.
Qed.

Lemma app_assoc (s t u : string) : (s ++ t) ++ u = s ++ (t ++ u).
Proof.
  induction s as [|x s IH]; simpl; [reflexivity|].
  rewrite IH. reflexivity.
Qed.

(** Two splits from the right of [a:b:c]. *)
Lemma rsplit2_last (c : ascii) (a b d : string) :
  mem c b = false -> mem c d = false ->
  rsplit c 2 (a ++ String c (b ++ String c d)) = [a; b; d].
Proof.
  intros Hb Hd. cbn [rsplit].
  replace (a ++ String c (b ++ String c d)) with ((a ++ String c b) ++ String c d)
    by (rewrite app_assoc; reflexivity).
  rewrite (rsplit1_last c _ d Hd), (rsplit1_last c a b Hb). reflexivity.
Qed.

(** A split is found exactly when the separator is counted. *)
Lemma rsplit1_some_count (c : ascii) (s a b : string) :
  rsplit1 c s = Some (a, b) -> count c s = count c a + 1 /\ mem c b = false.
Proof.
  revert a b. induction s as [|x s IH]; simpl; intros a b; [discriminate|].
  destruct (rsplit1 c s) as [[a' b']|] eqn:E.
  - intros [= <- <-]. destruct (IH a' b' eq_refl) as [-> Hb]. simpl. split; [lia|assumption].
  - destruct (Ascii.eqb x c) eqn:Ex; [|discriminate].
    intros [= <- <-]. simpl. clear IH.
    assert (Hm : mem c s = false).
    { clear -E. induction s as [|y s IH]; simpl in *; [reflexivity|].
      destruct (rsplit1 c s) as [[? ?]|]; [discriminate|].
      destruct (Ascii.eqb y c); [discriminate|]. simpl. apply IH. reflexivity. }
    rewrite (mem_false_count c s Hm). split; [lia|assumption].
Qed.

Lemma rsplit1_some_app (c : ascii) (s a b : string) :
  rsplit1 c s = Some (a, b) -> s = a ++ String c b.
Proof.
  revert a b. induction s as [|x s IH]; simpl; intros a b; [discriminate|].
  destruct (rsplit1 c s) as [[a' b']|] eqn:E.
  - intros [= <- <-]. simpl. rewrite (IH a' b' eq_refl). reflexivity.
  - destruct (Ascii.eqb_spec x c) as [->|]; [|discriminate].
    intros [= <- <-]. reflexivity.
Qed.

Lemma count_pos_rsplit1 (c : ascii) (s : string) :
  0 < count c s -> exists a b, rsplit1 c s = Some (a, b).
Proof.
  induction s as [|x s IH]; simpl; [lia|].
  destruct (rsplit1 c s) as [[a b]|] eqn:E; [eauto|].
  destruct (Ascii.eqb x c); [eauto|].
  intros Hc. destruct IH as (a & b & Hab); [lia|discriminate].
Qed.

End PyStrFacts.

(** ** The note notification *)

Module NoteFacts.
Import PyStr Note.

Lemma replace_open_cons (x : ascii) (s : string) :
  replace "{" "{{" (String x s) =
  if Ascii.eqb x "{" then String "{" (String "{" (replace "{" "{{" s))
  else String x (replace "{" "{{" s).
Proof.
  unfold replace. cbn [replace_scan startswith String.length Nat.pred].
  rewrite Ascii.eqb_sym.
  destruct (Ascii.eqb x "{"); reflexivity.
Qed.

Lemma replace_close_cons (x : ascii) (s : string) :
  replace "}" "}}" (String x s) =
  if Ascii.eqb x "}" then String "}" (String "}" (replace "}" "}}" s))
  else String x (replace "}" "}}" s).
Proof.
  unfold replace. cbn [replace_scan startswith String.length Nat.pred].
  rewrite Ascii.eqb_sym.
  destruct (Ascii.eqb x "}"); reflexivity.
Qed.

(** The two replacements of [get_description], one after the other, double
    the braces character by character. *)
Lemma replace_replace_escape (s : string) :
  replace "}" "}}" (replace "{" "{{" s) = escape_braces s.
Proof.
  induction s as [|x s IH]; [reflexivity|].
  rewrite replace_open_cons. cbn [escape_braces].
  destruct (Ascii.eqb_spec x "{") as [->|Hopen].
  - rewrite !replace_close_cons, IH. reflexivity.
  - rewrite replace_close_cons.
    destruct (Ascii.eqb_spec x "}") as [->|Hclose]; rewrite IH; reflexivity.
Qed.

Lemma without_braces_escape (s : string) :
  without_braces (escape_braces s) = without_braces s.
Proof.
  induction s as [|x s IH]; [reflexivity|]. cbn [escape_braces without_braces].
  destruct (Ascii.eqb x "{") eqn:Eo.
  - cbn [without_braces]. rewrite Eo. cbn. exact IH.
  - destruct (Ascii.eqb x "}") eqn:Ec.
    + cbn [without_braces]. rewrite Eo, Ec. cbn. exact IH.
    + cbn [without_braces]. rewrite Eo, Ec. cbn. rewrite IH. reflexivity.
Qed.

Lemma count_escape_open (s : string) :
  count "{" (escape_braces s) = 2 * count "{" s.
Proof.
  induction s as [|x s IH]; [reflexivity|]. cbn [escape_braces count].
  destruct (Ascii.eqb_spec x "{") as [->|Ho].
  - cbn [count]. rewrite IH. cbn. lia.
  - destruct (Ascii.eqb_spec x "}") as [->|Hc].
    + cbn [count]. rewrite IH. cbn. lia.
    + cbn [count]. destruct (Ascii.eqb_spec x "{"); [contradiction|]. rewrite IH. lia.
Qed.

Lemma count_escape_close (s : string) :
  count "}" (escape_braces s) = 2 * count "}" s.
Proof.
  induction s as [|x s IH]; [reflexivity|]. cbn [escape_braces count].
  destruct (Ascii.eqb_spec x "{") as [->|Ho].
  - cbn [count]. rewrite IH. cbn. lia.
  - destruct (Ascii.eqb_spec x "}") as [->|Hc].
    + cbn [count]. rewrite IH. cbn. lia.
    + cbn [count]. destruct (Ascii.eqb_spec x "}"); [contradiction|]. rewrite IH. lia.
Qed.

(** C6: for every note text, [get_description] returns the triple
    [(description, None, {})] whose description is the text with every ['{']
    doubled and every ['}'] doubled: taking the braces out of the description
    leaves what taking them out of the text leaves, so no other character is
    altered, and the description has twice the text's braces of each kind. *)
Theorem get_description_doubles_braces (activity : Activity) (text : string) :
  data activity !! "text" = Some text ->
  get_description activity = Ok (escape_braces text, None, ∅)
  /\ without_braces (escape_braces text) = without_braces text
  /\ count "{" (escape_braces text) = 2 * count "{" text
  /\ count "}" (escape_braces text) = 2 * count "}" text.
Proof.
  intros Htext. unfold get_description. rewrite Htext.
  rewrite replace_replace_escape.
  auto using without_braces_escape, count_escape_open, count_escape_close.
Qed.

(** The note ["try {x} or }"]. *)
Lemma get_description_doubles_braces_witness :
  get_description {| data := {[ "text" := "try {x} or }" ]} |}
  = Ok ("try {{x}} or }}", None, ∅).
Proof.
  exact (proj1 (get_description_doubles_braces
                  {| data := {[ "text" := "try {x} or }" ]} |} "try {x} or }" eq_refl)).
Defined.

End NoteFacts.

(** ** Signed links *)

Module LinksignFacts.
Import PyStr PyStrFacts Linksign.

Lemma length_split (c : ascii) (s : string) :
  Z.of_nat (length (split c s)) = count c s + 1.
Proof.
  induction s as [|x s IH]; [reflexivity|]. cbn [split count].
  pose proof (count_nonneg c s).
  destruct (Ascii.eqb x c).
  - cbn [length]. lia.
  - destruct (split c s) as [|seg segs]; cbn [length] in *; lia.
Qed.

Section Facts.

Context `{Collaborators}.

(** The signer takes back what it signed, as long as the MAC and the
    timestamp are free of the separator. *)
Lemma Signer_unsign_sign (value : string) :
  mem ":" (signature value) = false ->
  Signer_unsign (Signer_sign value) = Ok value.
Proof.
  intros Hmac. unfold Signer_unsign, Signer_sign.
  change (value ++ ":" ++ signature value) with (value ++ String ":" (signature value)).
  rewrite (rsplit1_last _ _ _ Hmac), String.eqb_refl. reflexivity.
Qed.

Lemma TimestampSigner_unsign_sign (t now max_age : Z) (value : string) :
  mem ":" (signature (value ++ ":" ++ b62_encode t)) = false ->
  mem ":" (b62_encode t) = false ->
  b62_decode (b62_encode t) = Ok t ->
  now - t <= max_age ->
  TimestampSigner_unsign now (TimestampSigner_sign t value) max_age = Ok value.
Proof.
  intros Hmac Hts Hdec Hage. unfold TimestampSigner_unsign, TimestampSigner_sign.
  rewrite (Signer_unsign_sign _ Hmac). cbn [rsplit].
  change (value ++ ":" ++ b62_encode t) with (value ++ String ":" (b62_encode t)).
  rewrite (rsplit1_last _ _ _ Hts). cbn [app].
  rewrite Hdec. destruct (Z.ltb_spec max_age (now - t)); [lia|reflexivity].
Qed.

(** The [signature] that [generate_signed_link] cuts out of the signed
    item: the timestamp and the MAC. *)
Lemma signature_of_signed_item (t : Z) (item : string) :
  mem ":" (signature (item ++ ":" ++ b62_encode t)) = false ->
  mem ":" (b62_encode t) = false ->
  join ":" (tail (rsplit ":" 2 (TimestampSigner_sign t item))) =
  b62_encode t ++ ":" ++ signature (item ++ ":" ++ b62_encode t).
Proof.
  intros Hmac Hts. unfold TimestampSigner_sign, Signer_sign.
  replace ((item ++ ":" ++ b62_encode t) ++ ":" ++ signature (item ++ ":" ++ b62_encode t))
    with (item ++ String ":" (b62_encode t ++ String ":" (signature (item ++ ":" ++ b62_encode t))))
    by (rewrite app_assoc; reflexivity).
  rewrite (rsplit2_last _ _ _ _ Hts Hmac). reflexivity.
Qed.

Lemma malformed_false_count (sig : option string) :
  malformed sig = false <-> exists s, sig = Some s /\ 2 <= count ":" s.
Proof.
  unfold malformed. split.
  - destruct sig as [s|]; [|discriminate].
    intros Hm. apply orb_false_elim in Hm as [_ Hc]. cbn [default from_option id] in Hc.
    exists s. split; [reflexivity|]. apply Z.ltb_ge. exact Hc.
  - intros (s & -> & Hc). cbv zeta. cbn [default from_option id].
    apply orb_false_intro; [|apply Z.ltb_ge; exact Hc].
    destruct s; [|reflexivity]. cbn [count] in Hc. lia.
Qed.

(** A parameter whose last segment is not the MAC of what stands before it
    is turned down by the signer, and the request gets no user. *)
Lemma process_signature_bad_mac (now max_age : Z) (request : Request)
    (payload mac : string) :
  find_signature request = Some (payload ++ ":" ++ mac) ->
  mem ":" mac = false ->
  mac <> signature (url_prefix ++ "|" ++ path request ++ "|" ++ payload) ->
  exists evs, process_signature now request max_age = (Ok None, evs)
              /\ forall uid, ~ In (GetUser uid) evs.
Proof.
  intros Hsig Hmac Hne. unfold process_signature. rewrite Hsig.
  destruct (malformed _); [exists []; split; [reflexivity|intros ? []]|].
  cbv zeta. cbn [default from_option id]. unfold TimestampSigner_unsign, Signer_unsign.
  replace (url_prefix ++ "|" ++ path request ++ "|" ++ payload ++ ":" ++ mac)
    with ((url_prefix ++ "|" ++ path request ++ "|" ++ payload) ++ String ":" mac)
    by (rewrite !app_assoc; reflexivity).
  rewrite (rsplit1_last _ _ _ Hmac).
  destruct (String.eqb_spec mac
              (signature (url_prefix ++ "|" ++ path request ++ "|" ++ payload)))
    as [Heq|_]; [contradiction|].
  cbn [is_BadSignature]. eexists. split; [reflexivity|].
  intros uid [Hin|[Hin|[]]]; discriminate.
Qed.

(** C1: a request for the link that [generate_signed_link] returns for an
    authenticated user (its path is the path of the link, its [_] parameter
    the one of the link), handled within [max_age] of the signing, gets the
    user that the user service has for the original user id. The hypotheses
    on the codecs, the MAC and the path say that the characters [":"] and
    ["|"], which the format is cut at, occur in none of the parts, and that
    the id and the timestamp decode to themselves. *)
Theorem process_signature_generate_signed_link
    (t now max_age user_id : Z) (viewname : string) (referrer : option string)
    (args : list string) (kwargs : gmap string string) (link_path : string)
    (user : option User) :
  let id36 := base36_encode user_id in
  let ts := b62_encode t in
  let item := url_prefix ++ "|" ++ link_path ++ "|" ++ id36 in
  let sig := id36 ++ ":" ++ ts ++ ":" ++ signature (item ++ ":" ++ ts) in
  let link := to_url link_path ++ "?_=" ++ sig in
  reverse viewname args kwargs = Ok link_path ->
  mem "|" link_path = false ->
  mem "|" id36 = false ->
  base36_decode id36 = Ok user_id ->
  mem ":" ts = false ->
  b62_decode ts = Ok t ->
  mem ":" (signature (item ++ ":" ++ ts)) = false ->
  get_user user_id = Ok user ->
  now - t <= max_age ->
  generate_signed_link t (UserObject true user_id) viewname referrer args kwargs
    = Ok (if falsy referrer then link
          else link ++ "&" ++ urlencode [("referrer", default EmptyString referrer)])
  /\ forall request : Request,
       path request = link_path ->
       find_signature request = Some sig ->
       process_signature now request max_age
         = (Ok user,
            [Unsign (url_prefix ++ "|" ++ link_path ++ "|" ++ sig) max_age;
             GetUser user_id]).
Proof.
  intros id36 ts item sig link Hrev Hpath Hid Hdec36 Hts Hdec62 Hmac Huser Hage.
  split.
  - unfold generate_signed_link. cbn [negb]. rewrite Hrev.
    fold id36 item. rewrite (signature_of_signed_item t item Hmac Hts).
    fold ts sig link. destruct (falsy referrer); reflexivity.
  - intros request Hrp Hsig. unfold process_signature. rewrite Hsig, Hrp.
    assert (Hwell : malformed (Some sig) = false).
    { apply malformed_false_count. exists sig. split; [reflexivity|].
      unfold sig. rewrite !count_app. cbn [count Ascii.eqb Bool.eqb].
      pose proof (count_nonneg ":" id36). pose proof (count_nonneg ":" ts).
      pose proof (count_nonneg ":" (signature (item ++ ":" ++ ts))). lia. }
    rewrite Hwell. cbv zeta. cbn [default from_option id].
    assert (Hsigned : url_prefix ++ "|" ++ link_path ++ "|" ++ sig
                      = TimestampSigner_sign t item)
      by (unfold TimestampSigner_sign, Signer_sign, sig, item;
          rewrite !app_assoc; reflexivity).
    rewrite !Hsigned.
    rewrite (TimestampSigner_unsign_sign t now max_age item Hmac Hts Hdec62 Hage).
    unfold item at 1.
    change (url_prefix ++ "|" ++ link_path ++ "|" ++ id36)
      with (url_prefix ++ String "|" (link_path ++ String "|" id36)).
    rewrite (rsplit2_last _ _ _ _ Hpath Hid).
    rewrite String.eqb_refl. cbn [negb]. rewrite Hdec36, Huser. reflexivity.
Qed.

(** C7: for a user object whose authenticated flag is false,
    [generate_signed_link] raises its [RuntimeError], whatever the view, the
    referrer and the arguments are and whatever the collaborators would
    answer: nothing is called before the error and no link is returned. *)
Theorem generate_signed_link_unauthenticated (now id : Z) (viewname : string)
    (referrer : option string) (args : list string) (kwargs : gmap string string) :
  generate_signed_link now (UserObject false id) viewname referrer args kwargs
    = Raise (RuntimeError "Need an authenticated user to sign a link.").
Proof. reflexivity. Qed.

(** C8: [process_signature] returns [None], raises nothing and looks no user
    up for a request whose signature is tampered with, whose timestamp is
    more than [max_age] old, or whose signed path is not the path of the
    request. *)
Theorem process_signature_invalid_link (now max_age : Z) (request : Request) :
  invalid_link now request max_age ->
  exists evs, process_signature now request max_age = (Ok None, evs)
              /\ forall uid, ~ In (GetUser uid) evs.
Proof.
  intros [payload mac Hsig Hmac Hne
         |payload ts mac timestamp Hsig Hts Hmac Heq Hdec Hold
         |payload signed_path Hsig Hmac Hne
         |sig data prefix signed_path user_id Hsig Hunsign Hsplit Hne].
  - exact (process_signature_bad_mac now max_age request payload mac Hsig Hmac Hne).
  - unfold process_signature. rewrite Hsig.
    destruct (malformed _); [exists []; split; [reflexivity|intros ? []]|].
    cbv zeta. cbn [default from_option id]. unfold TimestampSigner_unsign, Signer_unsign.
    replace (url_prefix ++ "|" ++ path request ++ "|" ++ payload ++ ":" ++ ts ++ ":" ++ mac)
      with ((url_prefix ++ "|" ++ path request ++ "|" ++ payload ++ ":" ++ ts)
              ++ String ":" mac)
      by (rewrite !app_assoc; reflexivity).
    rewrite (rsplit1_last _ _ _ Hmac), <- Heq, String.eqb_refl. cbn [rsplit].
    replace (url_prefix ++ "|" ++ path request ++ "|" ++ payload ++ ":" ++ ts)
      with ((url_prefix ++ "|" ++ path request ++ "|" ++ payload) ++ String ":" ts)
      by (rewrite !app_assoc; reflexivity).
    rewrite (rsplit1_last _ _ _ Hts). cbn [app]. rewrite Hdec.
    destruct (Z.ltb_spec max_age (now - timestamp)); [|lia].
    cbn [is_BadSignature]. eexists. split; [reflexivity|].
    intros uid [Hin|[Hin|[]]]; discriminate.
  - exact (process_signature_bad_mac now max_age request payload _ Hsig Hmac Hne).
  - unfold process_signature. rewrite Hsig.
    destruct (malformed _); [exists []; split; [reflexivity|intros ? []]|].
    cbv zeta. cbn [default from_option id]. rewrite Hunsign, Hsplit.
    destruct (String.eqb_spec signed_path (path request)) as [Heq|_]; [contradiction|].
    cbn [negb]. eexists. split; [reflexivity|].
    intros uid [Hin|[]]; discriminate.
Qed.

(** C9, as the code has it: the format check of [process_signature] asks for
    at least two [":"], that is three [":"]-delimited segments. A request
    without the [_] parameter, or with fewer than three segments in it,
    gets [None] and the signer is not called; with three segments or more
    the signer is called on the parameter behind the url prefix and the
    path of the request. *)
Theorem process_signature_format_check (now max_age : Z) (request : Request) :
  (find_signature request = None ->
   process_signature now request max_age = (Ok None, []))
  /\ (forall sig, find_signature request = Some sig ->
        (length (split ":" sig) < 3)%nat ->
        process_signature now request max_age = (Ok None, []))
  /\ (forall sig, find_signature request = Some sig ->
        (3 <= length (split ":" sig))%nat ->
        exists result evs,
          process_signature now request max_age
            = (result,
               Unsign (url_prefix ++ "|" ++ path request ++ "|" ++ sig) max_age :: evs)).
Proof.
  unfold process_signature. repeat split.
  - intros ->. reflexivity.
  - intros sig -> Hseg.
    destruct (malformed (Some sig)) eqn:Hm; [reflexivity|].
    apply malformed_false_count in Hm as (s & [= <-] & Hc).
    pose proof (length_split ":" sig). lia.
  - intros sig -> Hseg.
    assert (Hm : malformed (Some sig) = false).
    { apply malformed_false_count. exists sig. split; [reflexivity|].
      pose proof (length_split ":" sig). lia. }
    rewrite Hm. cbv zeta. cbn [default from_option id].
    destruct (TimestampSigner_unsign _ _ _) as [data|e].
    + destruct (rsplit "|" 2 data) as [|? [|signed_path [|user_id [|? ?]]]]; eauto.
      destruct (negb _); eauto.
      destruct (base36_decode user_id) as [uid|e]; [|destruct (is_ValueError e); eauto].
      destruct (get_user uid) as [u|e]; [|destruct (is_ValueError e)]; eauto.
    + destruct (is_BadSignature e); eauto.
Qed.

End Facts.

(** *** The properties at work on the stand-ins *)

Import Reference.

(** The link for user 42, signed at 1700000000 and followed 100 seconds
    later. *)
Lemma process_signature_generate_signed_link_witness :
  generate_signed_link 1700000000 (UserObject true 42) "account-settings"
    (Some "email") [] ∅
  = Ok ("https://us.sentry.example/account-settings/?_=" ++ signed_parameter
        ++ "&referrer=email")
  /\ process_signature 1700000100 (request_with signed_parameter) default_max_age
     = (Ok (Some "user #42"),
        [Unsign ("https://sentry.example|/account-settings/|" ++ signed_parameter)
           default_max_age;
         GetUser 42]).
Proof.
  assert (Hage : 1700000100 - 1700000000 <= default_max_age)
    by (vm_compute; discriminate).
  destruct (process_signature_generate_signed_link (H := collaborators)
              1700000000 1700000100 default_max_age 42 "account-settings"
              (Some "email") [] ∅ "/account-settings/" (Some "user #42")
              eq_refl eq_refl eq_refl eq_refl eq_refl eq_refl eq_refl eq_refl Hage)
    as [Hlink Hprocess].
  split; [exact Hlink|].
  exact (Hprocess (request_with signed_parameter) eq_refl eq_refl).
Defined.

(** The hypothesis on the path is needed: the signed data is cut at its last
    two ["|"], so over a path with a ["|"] in it (which [reverse], encoding
    its result as a URL, does not return) the link would be signed, and the
    request for it turned down at the comparison of the paths. *)
Remark path_with_bar_is_not_resolved :
  let sig := "16:1r31eq:secret/https.//sentry.example|/a|b/|16.1r31eq" in
  generate_signed_link (H := collaborators_with (fun _ _ _ => Ok "/a|b/"))
    1700000000 (UserObject true 42) "account-settings" None [] ∅
  = Ok ("https://us.sentry.example/a|b/?_=" ++ sig)
  /\ process_signature (H := collaborators_with (fun _ _ _ => Ok "/a|b/"))
       1700000100 {| path := "/a|b/"; GET := {[ "_" := sig ]} |} default_max_age
     = (Ok None, [Unsign ("https://sentry.example|/a|b/|" ++ sig) default_max_age]).
Proof. split; reflexivity. Qed.

(** The same link, followed one second after its ten days. *)
Lemma process_signature_invalid_link_witness :
  exists evs,
    process_signature (1700000000 + 864001) (request_with signed_parameter)
      default_max_age
    = (Ok None, evs)
    /\ forall uid, ~ In (GetUser uid) evs.
Proof.
  apply process_signature_invalid_link.
  apply (expired _ _ _ "16" "1r31eq"
           "secret/https.//sentry.example|/account-settings/|16.1r31eq" 1700000000);
    reflexivity.
Defined.

(** A link whose MAC was cut short, and a link signed for another path, are
    invalid links. *)
Example tampered_link :
  invalid_link 1700000100 (request_with "16:1r31eq:secret/https.//sentry.example")
    default_max_age.
Proof.
  apply (tampered _ _ _ "16:1r31eq" "secret/https.//sentry.example");
    [reflexivity | reflexivity | vm_compute; discriminate].
Qed.

Example link_for_other_path :
  invalid_link 1700000100
    (request_with "16:1r31eq:secret/https.//sentry.example|/organizations/|16.1r31eq")
    default_max_age.
Proof.
  apply (signed_for_other_path _ _ _ "16:1r31eq" "/organizations/");
    [reflexivity | reflexivity | vm_compute; discriminate].
Qed.

(** A parameter signed as it stands whose user part holds a ["|"]: the
    signer accepts it, and the path cut out of the signed data is not the
    path of the request. *)
Example link_with_wrong_signed_path :
  invalid_link 1700000100
    (request_with
       "x|16:1r31eq:secret/https.//sentry.example|/account-settings/|x|16.1r31eq")
    default_max_age.
Proof.
  apply (wrong_path _ _ _
           "x|16:1r31eq:secret/https.//sentry.example|/account-settings/|x|16.1r31eq"
           "https://sentry.example|/account-settings/|x|16"
           "https://sentry.example|/account-settings/" "x" "16");
    [reflexivity | reflexivity | reflexivity | discriminate].
Qed.

(** C9, as the claim has it, fails: the parameter ["a:b"] has two
    [":"]-delimited segments, and [process_signature] returns [None] for it
    without calling the signer. *)
Lemma two_segments_do_not_pass :
  length (split ":" "a:b") = 2%nat
  /\ process_signature 1700000100 (request_with "a:b") default_max_age = (Ok None, []).
Proof. split; reflexivity. Qed.

(** With three segments the signer is called. *)
Lemma process_signature_format_check_witness :
  exists result evs,
    process_signature 1700000100 (request_with "a:b:c") default_max_age
    = (result,
       Unsign "https://sentry.example|/account-settings/|a:b:c" default_max_age :: evs).
Proof.
  refine (proj2 (proj2 (process_signature_format_check
                          1700000100 default_max_age (request_with "a:b:c")))
            "a:b:c" eq_refl _).
  vm_compute. lia.
Defined.

End LinksignFacts.

(** ** The blame fetcher *)

Module BlameFacts.
Import Blame.
Local Open Scope list_scope.

(** [max_by] picks the first element of greatest key: what stands before it
    is strictly smaller, what stands after it is not greater. *)
Lemma max_by_first_greatest {A : Type} (key : A -> Z) (xs : list A) (best : A) :
  exists before after,
    best :: xs = before ++ max_by key best xs :: after
    /\ Forall (fun x => key x < key (max_by key best xs)) before
    /\ Forall (fun x => key x <= key (max_by key best xs)) after.
Proof.
  revert best. induction xs as [|x xs IH]; intros best; cbn [max_by].
  - exists [], []. repeat split; constructor.
  - destruct (Z.ltb_spec (key best) (key x)) as [Hlt|Hge].
    + destruct (IH x) as (before & after & Heq & Hbefore & Hafter).
      exists (best :: before), after.
      split; [cbn [app]; f_equal; exact Heq|]. split; [|assumption].
      constructor; [|assumption].
      destruct before as [|y before]; cbn in Heq; injection Heq as Hx _.
      * rewrite <- Hx. assumption.
      * subst y. apply Forall_inv in Hbefore. lia.
    + destruct (IH best) as (before & after & Heq & Hbefore & Hafter).
      destruct before as [|y before]; cbn in Heq; injection Heq as Hbest Hxs.
      * exists [], (x :: after). rewrite <- Hbest in Hafter |- *.
        split; [cbn [app]; do 2 f_equal; exact Hxs|]. split; [constructor|].
        constructor; assumption.
      * subst y. exists (best :: x :: before), after.
        split; [cbn [app]; do 2 f_equal; exact Hxs|]. split; [|assumption].
        pose proof (Forall_inv Hbefore) as Hb. cbn beta in Hb.
        constructor; [assumption|]. constructor; [lia|].
        apply Forall_inv_tail in Hbefore. assumption.
Qed.

Section Facts.

Context {St : Type} `{ApiClient St} `{GitLab}.

Implicit Types (extra : gmap string PyVal) (w : World St).

(** Every record that reading a commit leaves is a log record. *)
Lemma _create_commit_from_blame_logs commit extra :
  Forall is_log (snd (_create_commit_from_blame commit extra)).
Proof.
  unfold _create_commit_from_blame.
  destruct commit as [commit|]; [|repeat constructor].
  destruct (bool_decide _); [repeat constructor|].
  destruct (dict_get commit "id") as [[|? ?]|]; try (repeat constructor; fail).
  destruct (dict_get commit "committed_date") as [[|? ?]|];
    try (repeat constructor; fail).
  destruct (parse_datetime _); repeat constructor.
Qed.

Lemma _get_commit_info_logs response extra :
  Forall is_log (snd (_get_commit_info_from_blame_response response extra)).
Proof.
  unfold _get_commit_info_from_blame_response.
  destruct response as [items|]; [|constructor].
  assert (Hlogged : Forall is_log
            (concat (map (fun item => snd (_create_commit_from_blame (item_commit item) extra))
                       items))).
  { induction items as [|item items IH]; [constructor|]. cbn [map concat].
    apply Forall_app. split; [apply _create_commit_from_blame_logs|exact IH]. }
  destruct (commits_with_required_info items extra); exact Hlogged.
Qed.

(** A hunk that lacks the required information gives no commit. *)
Lemma lacks_required_info_None item extra :
  lacks_required_info item ->
  fst (_create_commit_from_blame (item_commit item) extra) = None.
Proof.
  unfold lacks_required_info, _create_commit_from_blame.
  destruct (item_commit item) as [commit|]; [|reflexivity].
  intros Hlacks. destruct (bool_decide _); [reflexivity|].
  destruct (dict_get commit "id") as [[|c commit_id]|]; try reflexivity.
  destruct (dict_get commit "committed_date") as [[|d committed_date]|];
    try reflexivity.
  destruct Hlacks as [[Hid|Hid]|[[Hdate|Hdate]|(date & [= <-] & Hparse)]];
    try discriminate.
  rewrite Hparse. reflexivity.
Qed.

Lemma commits_with_required_info_nil items extra :
  Forall lacks_required_info items -> commits_with_required_info items extra = [].
Proof.
  unfold commits_with_required_info.
  induction 1 as [|item items Hitem _ IH]; [reflexivity|].
  cbn [map omap list_omap]. rewrite (lacks_required_info_None item extra Hitem).
  exact IH.
Qed.

(** [_fetch_file_blame] on a response that is a sequence of hunks. *)
Lemma _fetch_file_blame_sequence file extra w items headers w1 :
  fetch_response file extra w = (Ok (SequenceApiResponse items headers), w1) ->
  _fetch_file_blame file extra w =
  (Ok (fst (_get_commit_info_from_blame_response (Some items) extra),
       get_rate_limit_info_from_response (SequenceApiResponse items headers)),
   {| client := client w1;
      log := log w1 ++ snd (_get_commit_info_from_blame_response (Some items) extra) |}).
Proof.
  intros Hresponse. unfold _fetch_file_blame, bind. rewrite Hresponse.
  destruct (_get_commit_info_from_blame_response (Some items) extra) as [commit logged].
  reflexivity.
Qed.

(** One turn of the loop of [fetch_file_blames]. *)
Lemma fetch_loop_cons num_files extra i file rest blames w :
  fetch_loop num_files extra i (file :: rest) blames w =
  match _fetch_file_blame file extra w with
  | (Ok (commit, rate_limit_info), w1) =>
      if rate_limit_too_low i num_files rate_limit_info
      then
        (Raise (ApiRateLimitedError "Approaching GitLab API rate limit"),
         {| client := client w1;
            log := log w1 ++
                   match rate_limit_info with
                   | Some info => rate_limit_events num_files extra info
                   | None => []
                   end |})
      else
        fetch_loop num_files extra (S i) rest
          match commit with
          | Some commit => blames ++ [_create_file_blame_info commit file]
          | None => blames
          end w1
  | (Raise e, w1) =>
      if is_ApiError e
      then fetch_loop num_files extra (S i) rest blames
             (snd (_handle_file_blame_error e file extra w1))
      else (Raise e, w1)
  end.
Proof.
  cbn [fetch_loop]. unfold bind at 1. unfold try_except_else. unfold bind at 1.
  destruct (_fetch_file_blame file extra w) as [[[commit rate_limit_info]|e] w1].
  - destruct commit as [commit|]; cbn [ret];
      destruct (rate_limit_too_low i num_files rate_limit_info); reflexivity.
  - destruct (is_ApiError e); [|reflexivity].
    unfold _handle_file_blame_error, bind, tell, ret.
    destruct (bool_decide _); reflexivity.
Qed.

Lemma is_log_not_guard (evs : list Event) :
  Forall is_log evs -> ~ In guard_metric evs.
Proof.
  intros Hlogs Hin. rewrite Forall_forall in Hlogs.
  specialize (Hlogs _ (proj2 (list_elem_of_In _ _) Hin)). exact Hlogs.
Qed.

(** Fetching a file does not touch the guard's metric. *)
Lemma fetch_response_guard_metric file extra w result w0 :
  fetch_response file extra w = (result, w0) ->
  In guard_metric (log w0) -> In guard_metric (log w).
Proof.
  unfold fetch_response. cbv zeta.
  destruct (check_cache _ _) as [cached|]; [destruct (response_truthy cached)|];
    try (destruct (get _ _ _) as [[r|e] st]; intros [= _ <-]; auto; fail).
  intros [= _ <-]. cbn [log]. intros Hin.
  apply in_app_or in Hin as [Hin|[Hin|[]]]; [assumption|discriminate].
Qed.

Lemma _fetch_file_blame_guard_metric file extra w result w1 :
  _fetch_file_blame file extra w = (result, w1) ->
  In guard_metric (log w1) -> In guard_metric (log w).
Proof.
  unfold _fetch_file_blame, bind.
  destruct (fetch_response file extra w) as [[response|e] w0] eqn:Hresponse.
  - pose proof (fetch_response_guard_metric _ _ _ _ _ Hresponse) as Hlog0.
    destruct response as [items headers|nonempty headers].
    + pose proof (_get_commit_info_logs (Some items) extra) as Hlogs.
      destruct (_get_commit_info_from_blame_response (Some items) extra)
        as [commit logged].
      unfold tell, ret. intros [= _ <-]. cbn [log snd] in *. intros Hin.
      apply in_app_or in Hin as [Hin|Hin]; [auto|].
      exfalso. exact (is_log_not_guard _ Hlogs Hin).
    + unfold raise. intros [= _ <-]. exact Hlog0.
  - intros [= _ <-]. exact (fetch_response_guard_metric _ _ _ _ _ Hresponse).
Qed.

Lemma _handle_file_blame_error_guard_metric e file extra w :
  In guard_metric (log (snd (_handle_file_blame_error e file extra w))) ->
  In guard_metric (log w).
Proof.
  unfold _handle_file_blame_error, bind, tell, ret.
  destruct (bool_decide _); cbn [snd log]; intros Hin;
    repeat (apply in_app_or in Hin as [Hin|Hin]);
    try assumption; destruct Hin as [Hin|[]]; discriminate.
Qed.

(** After the first turn the loop lets no [ApiError] out and leaves the
    guard's metric alone. *)
Lemma fetch_loop_after_first num_files extra files :
  forall i blames w result w',
    i <> O ->
    fetch_loop num_files extra i files blames w = (result, w') ->
    (forall e, result = Raise e -> is_ApiError e = false)
    /\ (In guard_metric (log w') -> In guard_metric (log w)).
Proof.
  induction files as [|file rest IH]; intros i blames w result w' Hi.
  - cbn [fetch_loop]. unfold ret. intros [= <- <-]. split; [discriminate|auto].
  - rewrite fetch_loop_cons.
    destruct (_fetch_file_blame file extra w) as [[[commit rate_limit_info]|e] w1]
      eqn:Hfetch.
    + assert (Hlow : rate_limit_too_low i num_files rate_limit_info = false).
      { unfold rate_limit_too_low. destruct rate_limit_info; [|reflexivity].
        destruct i; [contradiction|reflexivity]. }
      rewrite Hlow. intros Hloop.
      destruct (IH _ _ _ _ _ (Nat.neq_succ_0 i) Hloop) as [Hraise Hlog].
      split; [assumption|]. intros Hin.
      exact (_fetch_file_blame_guard_metric _ _ _ _ _ Hfetch (Hlog Hin)).
    + destruct (is_ApiError e) eqn:He.
      * intros Hloop.
        destruct (IH _ _ _ _ _ (Nat.neq_succ_0 i) Hloop) as [Hraise Hlog].
        split; [assumption|]. intros Hin.
        apply (_fetch_file_blame_guard_metric _ _ _ _ _ Hfetch).
        exact (_handle_file_blame_error_guard_metric _ _ _ _ (Hlog Hin)).
      * intros [= <- <-]. split; [intros ? [= <-]; assumption|].
        exact (_fetch_file_blame_guard_metric _ _ _ _ _ Hfetch).
Qed.

(** The list grows by one blame a file at most. *)
Lemma fetch_loop_length num_files extra files :
  forall i blames w result w',
    fetch_loop num_files extra i files blames w = (Ok result, w') ->
    (length result <= length blames + length files)%nat.
Proof.
  induction files as [|file rest IH]; intros i blames w result w'.
  - cbn [fetch_loop]. unfold ret. intros [= <- _]. cbn [length]. lia.
  - rewrite fetch_loop_cons.
    destruct (_fetch_file_blame file extra w) as [[[commit rate_limit_info]|e] w1].
    + destruct (rate_limit_too_low _ _ _); [discriminate|].
      intros Hloop. apply IH in Hloop.
      destruct commit; rewrite ?length_app in Hloop; cbn [length] in *; lia.
    + destruct (is_ApiError e); [|discriminate].
      intros Hloop. apply IH in Hloop. cbn [length]. lia.
Qed.

(** C2: in a batch of more than one file, when the call for the first file
    succeeds and the rate limit read from its response leaves less than
    [MINIMUM_REQUESTS] minus the number of files, [fetch_file_blames] raises
    the rate limit error; the client is left as the first call left it, so
    no further file was asked for, and the log has the guard's metric and
    record after what the first call logged. *)
Theorem fetch_file_blames_rate_limited (file : SourceLineInfo)
    (rest : list SourceLineInfo) extra w (commit : option CommitInfo)
    (info : GitLabRateLimitInfo) w1 :
  (1 < length (file :: rest))%nat ->
  _fetch_file_blame file extra w = (Ok (commit, Some info), w1) ->
  remaining info < 100 - Z.of_nat (length (file :: rest)) ->
  fetch_file_blames (file :: rest) extra w =
  (Raise (ApiRateLimitedError "Approaching GitLab API rate limit"),
   {| client := client w1;
      log := log w1 ++ rate_limit_events (length (file :: rest)) extra info |}).
Proof.
  intros Hmany Hfetch Hlow. unfold fetch_file_blames.
  rewrite fetch_loop_cons, Hfetch.
  assert (Hguard : rate_limit_too_low 0 (length (file :: rest)) (Some info) = true).
  { unfold rate_limit_too_low, MINIMUM_REQUESTS.
    rewrite (proj2 (Nat.ltb_lt _ _) Hmany), (proj2 (Z.ltb_lt _ _) Hlow). reflexivity. }
  rewrite Hguard. reflexivity.
Qed.

(** C3: when the hunks of a response give commits with a valid id and a
    date that parses, the commit selected is one of them, none of them is
    later, and those before it in response order are strictly earlier: of
    the commits of the latest date it is the first. It is the commit that
    [_fetch_file_blame] hands to the loop for the [FileBlameInfo]. *)
Theorem selected_commit_is_first_latest (items : list GitLabFileBlameResponseItem)
    extra :
  commits_with_required_info items extra <> [] ->
  exists selected before after,
    fst (_get_commit_info_from_blame_response (Some items) extra) = Some selected
    /\ commits_with_required_info items extra = before ++ selected :: after
    /\ Forall (fun c => committedDate c < committedDate selected) before
    /\ Forall (fun c => committedDate c <= committedDate selected) after
    /\ forall file w headers w1,
         fetch_response file extra w = (Ok (SequenceApiResponse items headers), w1) ->
         fst (_fetch_file_blame file extra w)
         = Ok (Some selected,
               get_rate_limit_info_from_response (SequenceApiResponse items headers)).
Proof.
  intros Hsome.
  destruct (commits_with_required_info items extra) as [|c cs] eqn:Hcommits;
    [contradiction|].
  destruct (max_by_first_greatest committedDate cs c)
    as (before & after & Heq & Hbefore & Hafter).
  assert (Hselected : fst (_get_commit_info_from_blame_response (Some items) extra)
                      = Some (max_by committedDate c cs)).
  { unfold _get_commit_info_from_blame_response. rewrite Hcommits. reflexivity. }
  exists (max_by committedDate c cs), before, after.
  repeat split; try assumption.
  intros file w headers w1 Hresponse.
  rewrite (_fetch_file_blame_sequence _ _ _ _ _ _ Hresponse). cbn [fst].
  rewrite Hselected. reflexivity.
Qed.

(** C4: the list that [fetch_file_blames] returns is not longer than the
    list of files; for no file at all it is empty, and nothing is requested,
    logged or raised. *)
Theorem fetch_file_blames_length (files : list SourceLineInfo) extra w :
  (forall blames w',
     fetch_file_blames files extra w = (Ok blames, w') ->
     (length blames <= length files)%nat)
  /\ fetch_file_blames [] extra w = (Ok [], w).
Proof.
  split; [|reflexivity].
  intros blames w' Hfetch. unfold fetch_file_blames in Hfetch.
  apply fetch_loop_length in Hfetch. cbn [length] in Hfetch. lia.
Qed.

(** C5: a file whose response has no hunk, or only hunks that lack a valid
    commit id or a committed date that parses, is fetched without an error
    and with no commit; the turn of the loop for it adds nothing to the
    list of blames, at any place in any batch, and goes on to the next file
    unless it is the turn of the first file and the rate limit guard stops
    the batch. *)
Theorem no_required_info_no_blame (file : SourceLineInfo)
    (items : list GitLabFileBlameResponseItem) (headers : gmap string string)
    extra w w1 :
  fetch_response file extra w = (Ok (SequenceApiResponse items headers), w1) ->
  Forall lacks_required_info items ->
  let rate_limit_info :=
    get_rate_limit_info_from_response (SequenceApiResponse items headers) in
  exists w2,
    _fetch_file_blame file extra w = (Ok (None, rate_limit_info), w2)
    /\ client w2 = client w1
    /\ forall num_files i rest blames,
         fetch_loop num_files extra i (file :: rest) blames w =
         if rate_limit_too_low i num_files rate_limit_info
         then
           (Raise (ApiRateLimitedError "Approaching GitLab API rate limit"),
            {| client := client w2;
               log := log w2 ++
                      match rate_limit_info with
                      | Some info => rate_limit_events num_files extra info
                      | None => []
                      end |})
         else fetch_loop num_files extra (S i) rest blames w2.
Proof.
  intros Hresponse Hlacks rate_limit_info.
  pose proof (_fetch_file_blame_sequence _ _ _ _ _ _ Hresponse) as Hfetch.
  assert (Hnone : fst (_get_commit_info_from_blame_response (Some items) extra) = None).
  { unfold _get_commit_info_from_blame_response.
    rewrite (commits_with_required_info_nil items extra Hlacks). reflexivity. }
  rewrite Hnone in Hfetch. fold rate_limit_info in Hfetch.
  eexists. split; [exact Hfetch|]. split; [reflexivity|].
  intros num_files i rest blames. rewrite fetch_loop_cons, Hfetch. reflexivity.
Qed.

(** C10: when the request for the first file raises an [ApiError], the
    batch is never stopped by the rate limit guard: whatever files follow
    and whatever quota their responses show, [fetch_file_blames] raises no
    [ApiError], so no [ApiRateLimitedError], and the guard's metric is not
    incremented. *)
Theorem first_file_error_skips_guard (file : SourceLineInfo)
    (rest : list SourceLineInfo) extra w (e : exn) w1 :
  _fetch_file_blame file extra w = (Raise e, w1) ->
  is_ApiError e = true ->
  forall result w',
    fetch_file_blames (file :: rest) extra w = (result, w') ->
    (forall e', result = Raise e' -> is_ApiError e' = false)
    /\ (forall msg, result <> Raise (ApiRateLimitedError msg))
    /\ (In guard_metric (log w') -> In guard_metric (log w)).
Proof.
  intros Hfetch He result w'. unfold fetch_file_blames.
  rewrite fetch_loop_cons, Hfetch, He. intros Hloop.
  destruct (fetch_loop_after_first _ _ _ _ _ _ _ _ (Nat.neq_succ_0 0) Hloop)
    as [Hraise Hlog].
  split; [assumption|]. split.
  - intros msg ->. specialize (Hraise _ eq_refl). discriminate.
  - intros Hin.
    apply (_fetch_file_blame_guard_metric _ _ _ _ _ Hfetch).
    exact (_handle_file_blame_error_guard_metric _ _ _ _ (Hlog Hin)).
Qed.

End Facts.

(** *** The properties at work on the stand-ins *)

Import Reference.

(** With 50 requests left, a batch of two files stops after [a.py]. *)
Lemma fetch_file_blames_rate_limited_witness :
  fst (fetch_file_blames [file "a.py" 3; file "b.py" 1] ∅ (world "50"))
  = Raise (ApiRateLimitedError "Approaching GitLab API rate limit")
  /\ requested (client (snd (fetch_file_blames [file "a.py" 3; file "b.py" 1] ∅
                               (world "50"))))
     = requested (client (snd (_fetch_file_blame (file "a.py" 3) ∅ (world "50"))))
  /\ requested (client (snd (_fetch_file_blame (file "a.py" 3) ∅ (world "50"))))
     = ["/projects/7/repository/files/a.py/blame"%string].
Proof.
  assert (Hfetch :
            _fetch_file_blame (file "a.py" 3) ∅ (world "50")
            = (Ok (Some {| commitId := "c2"; committedDate := 300;
                           commitMessage := None; commitAuthorName := None;
                           commitAuthorEmail := None |},
                   Some {| limit := 2000; remaining := 50; reset := 1700000060;
                           used := 1 |}),
               snd (_fetch_file_blame (file "a.py" 3) ∅ (world "50"))))
    by (vm_compute; reflexivity).
  assert (Hmany : (1 < length [file "a.py" 3; file "b.py" 1])%nat) by (cbn; lia).
  assert (Hlow : 50 < 100 - Z.of_nat (length [file "a.py" 3; file "b.py" 1]))
    by (cbn; lia).
  pose proof (fetch_file_blames_rate_limited _ _ _ _ _ _ _ Hmany Hfetch Hlow) as Hrun.
  split; [exact (f_equal fst Hrun)|].
  split; [exact (f_equal (fun r => requested (client (snd r))) Hrun)|].
  vm_compute. reflexivity.
Defined.

(** Of the three commits of [a.py], of dates 100, 300 and 300, the second
    is selected. *)
Lemma selected_commit_is_first_latest_witness :
  exists selected before after,
    fst (_get_commit_info_from_blame_response
           (Some [hunk "c1" "100"; hunk "c2" "300"; hunk "c3" "300"]) ∅)
    = Some selected
    /\ commits_with_required_info [hunk "c1" "100"; hunk "c2" "300"; hunk "c3" "300"] ∅
       = before ++ selected :: after
    /\ commitId selected = "c2"%string.
Proof.
  assert (Hsome : commits_with_required_info
                    [hunk "c1" "100"; hunk "c2" "300"; hunk "c3" "300"] ∅ <> [])
    by (vm_compute; discriminate).
  destruct (selected_commit_is_first_latest _ _ Hsome)
    as (selected & before & after & Hselected & Hcommits & _).
  exists selected, before, after. split; [exact Hselected|]. split; [exact Hcommits|].
  vm_compute in Hselected. injection Hselected as <-. reflexivity.
Defined.

(** Five files, of which only [a.py] gets a blame. *)
Lemma fetch_file_blames_length_witness :
  exists blames,
    fst (fetch_file_blames
           [file "a.py" 3; file "b.py" 1; file "c.py" 2; file "d.py" 1; file "e.py" 4]
           ∅ (world "500")) = Ok blames
    /\ (length blames <= 5)%nat.
Proof.
  set (files := [file "a.py" 3; file "b.py" 1; file "c.py" 2; file "d.py" 1;
                 file "e.py" 4]).
  set (blames := match fst (fetch_file_blames files ∅ (world "500")) with
                 | Ok blames => blames
                 | Raise _ => []
                 end).
  assert (Hrun : fetch_file_blames files ∅ (world "500")
                 = (Ok blames, snd (fetch_file_blames files ∅ (world "500"))))
    by (vm_compute; reflexivity).
  exists blames. split; [exact (f_equal fst Hrun)|].
  exact (proj1 (fetch_file_blames_length files ∅ (world "500")) _ _ Hrun).
Defined.

(** [b.py] has three hunks, none with a usable commit. *)
Lemma no_required_info_no_blame_witness :
  fst (_fetch_file_blame (file "b.py" 1) ∅ (world "500"))
  = Ok (None,
        Some {| limit := 2000; remaining := 500; reset := 1700000060; used := 1 |}).
Proof.
  set (items := [hunk "" "100"; hunk "c5" "yesterday";
                 {| item_commit := None; lines := [] |}]).
  assert (Hresponse :
            fetch_response (file "b.py" 1) ∅ (world "500")
            = (Ok (SequenceApiResponse items (rate_limit_headers "500")),
               snd (fetch_response (file "b.py" 1) ∅ (world "500"))))
    by (vm_compute; reflexivity).
  assert (Hlacks : Forall lacks_required_info items).
  { subst items. constructor; [left; right; reflexivity|].
    constructor; [right; right; exists "yesterday"%string; split; reflexivity|].
    constructor; [exact I|constructor]. }
  destruct (no_required_info_no_blame _ _ _ _ _ _ Hresponse Hlacks)
    as (w2 & Hfetch & _).
  rewrite Hfetch. vm_compute. reflexivity.
Defined.

(** [d.py] is refused; [a.py] after it is blamed with 50 requests left. *)
Lemma first_file_error_skips_guard_witness :
  ~ In guard_metric
      (log (snd (fetch_file_blames [file "d.py" 1; file "a.py" 3] ∅ (world "50")))).
Proof.
  assert (Hfetch : _fetch_file_blame (file "d.py" 1) ∅ (world "50")
                   = (Raise (ApiRateLimitedError "Too Many Requests"),
                      snd (_fetch_file_blame (file "d.py" 1) ∅ (world "50"))))
    by (vm_compute; reflexivity).
  intros Hin.
  exact (proj2 (proj2 (first_file_error_skips_guard (file "d.py" 1) [file "a.py" 3] ∅
                         (world "50") _ _ Hfetch eq_refl _ _
                         (surjective_pairing _))) Hin).
Defined.

Example first_file_error_then_blame :
  map (fun b => commitId (commit b))
    match fst (fetch_file_blames [file "d.py" 1; file "a.py" 3] ∅ (world "50")) with
    | Ok blames => blames
    | Raise _ => []
    end
  = ["c2"%string].
Proof. vm_compute. reflexivity. Qed.

End BlameFacts.

(** * Further properties *)

(** ** Signed links: what a returned user and a user lookup stand for *)

Module LinksignMore.
Import PyStr PyStrFacts Linksign LinksignFacts LinksignSpec.

(** Splitting at the last separator of [s ++ t] when [t] holds one. *)
Lemma rsplit1_app_r (c : ascii) (s t a b : string) :
  rsplit1 c t = Some (a, b) -> rsplit1 c (s ++ t) = Some (s ++ a, b).
Proof.
  intros Ht. induction s as [|x s IH]; simpl; [exact Ht|].
  rewrite IH. reflexivity.
Qed.

Lemma rsplit2_some_app (c : ascii) (s a b d : string) :
  rsplit c 2 s = [a; b; d] ->
  s = a ++ String c (b ++ String c d) /\ mem c b = false /\ mem c d = false.
Proof.
  cbn [rsplit]. destruct (rsplit1 c s) as [[s1 d']|] eqn:E1; [|discriminate].
  destruct (rsplit1 c s1) as [[a' b']|] eqn:E2; [|discriminate].
  cbn [app]. intros [= <- <- <-].
  apply rsplit1_some_count in E1 as E1'. apply rsplit1_some_count in E2 as E2'.
  apply rsplit1_some_app in E1. apply rsplit1_some_app in E2. subst s s1.
  rewrite app_assoc. cbn [String.append]. tauto.
Qed.

Section Facts.

Context `{Collaborators}.

(** What the signer accepts: a value followed by a timestamp and by the MAC
    of both, the timestamp being fresh. *)
Lemma TimestampSigner_unsign_Ok (now max_age : Z) (signed data : string) :
  TimestampSigner_unsign now signed max_age = Ok data <->
  exists ts mac t,
    signed = data ++ ":" ++ ts ++ ":" ++ mac
    /\ mem ":" ts = false /\ mem ":" mac = false
    /\ mac = signature (data ++ ":" ++ ts)
    /\ b62_decode ts = Ok t
    /\ now - t <= max_age.
Proof.
  unfold TimestampSigner_unsign, Signer_unsign. split.
  - destruct (rsplit1 ":" signed) as [[value mac]|] eqn:E1; [|discriminate].
    destruct (String.eqb_spec mac (signature value)) as [Hmac|]; [|discriminate].
    cbn [rsplit]. destruct (rsplit1 ":" value) as [[data' ts]|] eqn:E2; [|discriminate].
    cbn [app]. destruct (b62_decode ts) as [t|] eqn:Hdec; [|discriminate].
    destruct (Z.ltb_spec max_age (now - t)); [discriminate|]. intros [= <-].
    apply rsplit1_some_count in E1 as E1'. apply rsplit1_some_count in E2 as E2'.
    apply rsplit1_some_app in E1. apply rsplit1_some_app in E2. subst signed value.
    exists ts, mac, t. rewrite app_assoc. cbn [String.append]. tauto.
  - intros (ts & mac & t & -> & Hts & Hmac & Heq & Hdec & Hage).
    replace (data ++ ":" ++ ts ++ ":" ++ mac) with ((data ++ ":" ++ ts) ++ String ":" mac)
      by (rewrite !app_assoc; reflexivity).
    rewrite (rsplit1_last _ _ _ Hmac), <- Heq, String.eqb_refl. cbn [rsplit].
    change (data ++ ":" ++ ts) with (data ++ String ":" ts).
    rewrite (rsplit1_last _ _ _ Hts). cbn [app]. rewrite Hdec.
    destruct (Z.ltb_spec max_age (now - t)); [lia|reflexivity].
Qed.

(** The parameter of a request that the signer accepts behind the url prefix
    and the path is an accepted parameter, and the data signed is what
    stands before its timestamp. *)
Lemma accepted_parameter_of_unsign (now max_age : Z) (request : Request)
    (sig data : string) :
  find_signature request = Some sig ->
  malformed (Some sig) = false ->
  TimestampSigner_unsign now (url_prefix ++ "|" ++ path request ++ "|" ++ sig) max_age
    = Ok data ->
  exists payload ts mac t,
    sig = payload ++ ":" ++ ts ++ ":" ++ mac
    /\ data = url_prefix ++ "|" ++ path request ++ "|" ++ payload
    /\ accepted_parameter now request max_age payload ts mac t.
Proof.
  intros Hsig Hwell Hunsign.
  apply malformed_false_count in Hwell as (s & [= <-] & Hcount).
  apply TimestampSigner_unsign_Ok in Hunsign
    as (ts & mac & t & Hsigned & Hts & Hmac & Heq & Hdec & Hage).
  destruct (count_pos_rsplit1 ":" sig) as (rest & mac' & Hsplit1); [lia|].
  pose proof (rsplit1_some_count _ _ _ _ Hsplit1) as [Hcount1 _].
  destruct (count_pos_rsplit1 ":" rest) as (payload & ts' & Hsplit2); [lia|].
  set (front := url_prefix ++ "|" ++ path request ++ "|") in *.
  assert (Hfront : url_prefix ++ "|" ++ path request ++ "|" ++ sig = front ++ sig)
    by (unfold front; rewrite !app_assoc; reflexivity).
  rewrite Hfront in Hsigned.
  pose proof (rsplit1_app_r ":" front _ _ _ Hsplit1) as Hleft1.
  rewrite Hsigned in Hleft1.
  replace (data ++ ":" ++ ts ++ ":" ++ mac) with ((data ++ ":" ++ ts) ++ String ":" mac)
    in Hleft1 by (rewrite !app_assoc; reflexivity).
  rewrite (rsplit1_last _ _ _ Hmac) in Hleft1. injection Hleft1 as Hrest <-.
  pose proof (rsplit1_app_r ":" front _ _ _ Hsplit2) as Hleft2.
  rewrite <- Hrest in Hleft2.
  change (data ++ ":" ++ ts) with (data ++ String ":" ts) in Hleft2.
  rewrite (rsplit1_last _ _ _ Hts) in Hleft2. injection Hleft2 as Hdata <-.
  apply rsplit1_some_app in Hsplit1. apply rsplit1_some_app in Hsplit2.
  exists payload, ts, mac, t.
  assert (Hshape : sig = payload ++ ":" ++ ts ++ ":" ++ mac).
  { rewrite Hsplit1, Hsplit2, app_assoc. reflexivity. }
  assert (Hdata' : data = url_prefix ++ "|" ++ path request ++ "|" ++ payload).
  { rewrite Hdata. unfold front. rewrite !app_assoc. reflexivity. }
  split; [exact Hshape|]. split; [exact Hdata'|].
  unfold accepted_parameter. rewrite Hsig, Hshape.
  repeat split; try assumption.
  rewrite Heq, Hdata', !app_assoc. reflexivity.
Qed.

(** An accepted parameter passes the format check and the signer. *)
Lemma unsign_of_accepted_parameter (now max_age : Z) (request : Request)
    (payload ts mac : string) (t : Z) :
  accepted_parameter now request max_age payload ts mac t ->
  malformed (find_signature request) = false
  /\ TimestampSigner_unsign now
       (url_prefix ++ "|" ++ path request ++ "|" ++ payload ++ ":" ++ ts ++ ":" ++ mac)
       max_age
     = Ok (url_prefix ++ "|" ++ path request ++ "|" ++ payload).
Proof.
  intros (Hsig & Hts & Hmac & Heq & Hdec & Hage). split.
  - rewrite Hsig. apply malformed_false_count. eexists. split; [reflexivity|].
    rewrite !count_app. cbn [count Ascii.eqb Bool.eqb].
    pose proof (count_nonneg ":" payload). pose proof (count_nonneg ":" ts).
    pose proof (count_nonneg ":" mac). lia.
  - apply TimestampSigner_unsign_Ok. exists ts, mac, t.
    repeat split; try assumption; rewrite ?Heq, !app_assoc; reflexivity.
Qed.

(** Where the user service is asked, the parameter of the request was
    accepted by the signer; it is asked once, after the signer, and about
    the id that the last ["|"]-segment of the signed data decodes to. *)
Lemma process_signature_lookup (now max_age : Z) (request : Request)
    (uid : Z) :
  In (GetUser uid) (snd (process_signature now request max_age)) ->
  exists payload ts mac t front user_id,
    accepted_parameter now request max_age payload ts mac t
    /\ url_prefix ++ "|" ++ path request ++ "|" ++ payload
       = front ++ "|" ++ path request ++ "|" ++ user_id
    /\ mem "|" (path request) = false
    /\ mem "|" user_id = false
    /\ base36_decode user_id = Ok uid
    /\ process_signature now request max_age
       = (match get_user uid with
          | Ok user => Ok user
          | Raise e => if is_ValueError e then Ok None else Raise e
          end,
          [Unsign (url_prefix ++ "|" ++ path request ++ "|" ++
                   payload ++ ":" ++ ts ++ ":" ++ mac) max_age;
           GetUser uid]).
Proof.
  unfold process_signature.
  destruct (find_signature request) as [sig|] eqn:Hsig; [|intros []].
  destruct (malformed (Some sig)) eqn:Hwell; [intros []|].
  cbv zeta. cbn [default from_option id].
  destruct (TimestampSigner_unsign _ _ _) as [data|e] eqn:Hunsign.
  - destruct (accepted_parameter_of_unsign _ _ _ _ _ Hsig Hwell Hunsign)
      as (payload & ts & mac & t & Hshape & Hdata & Haccepted).
    destruct (rsplit "|" 2 data) as [|front [|signed_path [|user_id [|? ?]]]] eqn:Hsplit;
      try (cbn [snd]; intros [Hin|[]]; discriminate).
    destruct (String.eqb_spec signed_path (path request)) as [->|Hne];
      cbn [negb]; [|cbn [snd]; intros [Hin|[]]; discriminate].
    apply rsplit2_some_app in Hsplit as (Hdata' & Hpath & Huser).
    destruct (base36_decode user_id) as [uid'|e] eqn:Hdec.
    + assert (Hin : In (GetUser uid) [Unsign (url_prefix ++ "|" ++ path request ++ "|" ++ sig)
                                      max_age; GetUser uid'] -> uid' = uid).
      { intros [Hin|[[= ->]|[]]]; [discriminate|reflexivity]. }
      intros Hlookup. assert (uid' = uid) as ->.
      { apply Hin. destruct (get_user uid') as [u|e]; [exact Hlookup|].
        destruct (is_ValueError e); exact Hlookup. }
      exists payload, ts, mac, t, front, user_id.
      split; [exact Haccepted|]. split; [rewrite <- Hdata; exact Hdata'|].
      split; [exact Hpath|]. split; [exact Huser|]. split; [exact Hdec|].
      rewrite <- Hshape.
      destruct (get_user uid) as [u|e]; [reflexivity|].
      destruct (is_ValueError e); reflexivity.
    + destruct (is_ValueError e); cbn [snd]; intros [Hin|[]]; discriminate.
  - destruct (is_BadSignature e); cbn [snd]; intros Hin;
      repeat (destruct Hin as [Hin|Hin]; try discriminate); destruct Hin.
Qed.


Lemma process_signature_user_lookup (now max_age : Z) (request : Request)
    (user : User) (evs : list Event) :
  process_signature now request max_age = (Ok (Some user), evs) ->
  exists uid, In (GetUser uid) evs.
Proof.
  unfold process_signature.
  destruct (malformed _); [discriminate|]. cbv zeta.
  destruct (TimestampSigner_unsign _ _ _) as [data|e];
    [|destruct (is_BadSignature e); discriminate].
  destruct (rsplit "|" 2 data) as [|front [|signed_path [|user_id [|? ?]]]];
    try discriminate.
  destruct (negb _); [discriminate|].
  destruct (base36_decode user_id) as [uid|e];
    [|destruct (is_ValueError e); discriminate].
  destruct (get_user uid) as [u|e]; [|destruct (is_ValueError e); discriminate].
  intros [= _ <-]. exists uid. right. left. reflexivity.
Qed.

(** X1: a user comes back from [process_signature] only for a request whose
    [_] parameter ends in a timestamp not older than [max_age] and in the
    MAC of the url prefix, the path of the request and what stands before
    the timestamp; the user is the one the user service has for the id
    decoded from the last ["|"]-segment of that signed data. *)
Theorem process_signature_user_is_authentic (now max_age : Z) (request : Request)
    (user : User) (evs : list Event) :
  process_signature now request max_age = (Ok (Some user), evs) ->
  exists payload ts mac t front user_id uid,
    accepted_parameter now request max_age payload ts mac t
    /\ url_prefix ++ "|" ++ path request ++ "|" ++ payload
       = front ++ "|" ++ path request ++ "|" ++ user_id
    /\ mem "|" (path request) = false
    /\ base36_decode user_id = Ok uid
    /\ get_user uid = Ok (Some user).
Proof.
  intros Hrun.
  destruct (process_signature_user_lookup _ _ _ _ _ Hrun) as (uid & Hin).
  assert (Hin' : In (GetUser uid) (snd (process_signature now request max_age)))
    by (rewrite Hrun; exact Hin).
  destruct (process_signature_lookup _ _ _ _ Hin')
    as (payload & ts & mac & t & front & user_id
        & Haccepted & Hdata & Hpath & _ & Hdec & Hrun').
  exists payload, ts, mac, t, front, user_id, uid.
  repeat split; try assumption; try apply Haccepted.
  rewrite Hrun in Hrun'. injection Hrun' as Hresult _.
  destruct (get_user uid) as [u|e]; [congruence|].
  destruct (is_ValueError e); discriminate.
Qed.

(** X2: [process_signature] asks the user service about a user id only
    when the signer has accepted the parameter of the request, and then
    once: the calls are the one to the signer and the one lookup. *)
Theorem process_signature_lookup_only_when_accepted (now max_age : Z)
    (request : Request) (uid : Z) :
  In (GetUser uid) (snd (process_signature now request max_age)) ->
  exists payload ts mac t,
    accepted_parameter now request max_age payload ts mac t
    /\ snd (process_signature now request max_age)
       = [Unsign (url_prefix ++ "|" ++ path request ++ "|" ++
                  payload ++ ":" ++ ts ++ ":" ++ mac) max_age;
          GetUser uid].
Proof.
  intros Hin.
  destruct (process_signature_lookup _ _ _ _ Hin)
    as (payload & ts & mac & t & front & user_id & Haccepted & _ & _ & _ & _ & Hrun).
  exists payload, ts, mac, t. split; [exact Haccepted|].
  rewrite Hrun. reflexivity.
Qed.

(** X3: behind an accepted parameter whose payload and path hold no ["|"],
    a payload that [base36_decode] raises [ValueError] on gives [None]
    without a lookup, a lookup that raises [ValueError] gives [None], and
    any other exception of the lookup leaves [process_signature]. *)
Theorem process_signature_unusable_id (now max_age : Z) (request : Request)
    (payload ts mac : string) (t : Z) :
  accepted_parameter now request max_age payload ts mac t ->
  mem "|" payload = false ->
  mem "|" (path request) = false ->
  let unsign :=
    Unsign (url_prefix ++ "|" ++ path request ++ "|" ++ payload ++ ":" ++ ts ++ ":" ++ mac)
      max_age in
  (base36_decode payload = Raise ValueError ->
   process_signature now request max_age = (Ok None, [unsign]))
  /\ (forall uid, base36_decode payload = Ok uid ->
        get_user uid = Raise ValueError ->
        process_signature now request max_age = (Ok None, [unsign; GetUser uid]))
  /\ (forall uid e, base36_decode payload = Ok uid ->
        get_user uid = Raise e -> is_ValueError e = false ->
        process_signature now request max_age = (Raise e, [unsign; GetUser uid])).
Proof.
  intros Haccepted Hpayload Hpath unsign.
  destruct (unsign_of_accepted_parameter _ _ _ _ _ _ _ Haccepted) as [Hwell Hunsign].
  destruct Haccepted as (Hsig & _).
  assert (Hrun : process_signature now request max_age =
                 match base36_decode payload with
                 | Raise e => if is_ValueError e then (Ok None, [unsign])
                              else (Raise e, [unsign])
                 | Ok uid =>
                     match get_user uid with
                     | Raise e => if is_ValueError e
                                  then (Ok None, [unsign; GetUser uid])
                                  else (Raise e, [unsign; GetUser uid])
                     | Ok user => (Ok user, [unsign; GetUser uid])
                     end
                 end).
  { unfold process_signature. rewrite Hwell, Hsig. cbv zeta.
    cbn [default from_option id]. rewrite Hunsign.
    change (url_prefix ++ "|" ++ path request ++ "|" ++ payload)
      with (url_prefix ++ String "|" (path request ++ String "|" payload)).
    rewrite (rsplit2_last _ _ _ _ Hpath Hpayload), String.eqb_refl. reflexivity. }
  rewrite Hrun. repeat split.
  - intros ->. reflexivity.
  - intros uid -> ->. reflexivity.
  - intros uid e -> -> ->. reflexivity.
Qed.

(** X4: [process_signature] reads the path and the [_] parameter of the
    request and nothing else: any other query parameter, the referrer that
    [generate_signed_link] appends among them, leaves its answer as it is. *)
Theorem process_signature_other_parameters (now max_age : Z) (request : Request)
    (key value : string) :
  key <> "_" ->
  process_signature now {| path := path request; GET := <[key := value]> (GET request) |}
    max_age
  = process_signature now request max_age.
Proof.
  intros Hkey. unfold process_signature, find_signature. cbn [path GET].
  rewrite lookup_insert_ne by exact Hkey. reflexivity.
Qed.

(** X5: acceptance is monotone in the clock and in [max_age]: a request that
    gets a user at [now] under [max_age] gets the same user at any time and
    under any age limit with [now' - max_age' <= now - max_age], so earlier
    on, a timestamp in the future included, and under a longer limit. *)
Theorem process_signature_earlier_or_longer (now max_age now' max_age' : Z)
    (request : Request) (user : User) (evs : list Event) :
  process_signature now request max_age = (Ok (Some user), evs) ->
  now' - max_age' <= now - max_age ->
  exists evs', process_signature now' request max_age' = (Ok (Some user), evs').
Proof.
  intros Hrun Hle.
  destruct (process_signature_user_lookup _ _ _ _ _ Hrun) as (uid & Hin).
  assert (Hin' : In (GetUser uid) (snd (process_signature now request max_age)))
    by (rewrite Hrun; exact Hin).
  destruct (process_signature_lookup _ _ _ _ Hin')
    as (payload & ts & mac & t & front & user_id
        & Haccepted & Hdata & Hpath & Huser & Hdec & Hrun').
  rewrite Hrun in Hrun'. injection Hrun' as Hresult _.
  assert (Hfound : get_user uid = Ok (Some user)).
  { destruct (get_user uid) as [u|e]; [congruence|].
    destruct (is_ValueError e); discriminate. }
  assert (Haccepted' : accepted_parameter now' request max_age' payload ts mac t).
  { destruct Haccepted as (? & ? & ? & ? & ? & ?). repeat split; try assumption. lia. }
  destruct (unsign_of_accepted_parameter _ _ _ _ _ _ _ Haccepted') as [Hwell Hunsign].
  destruct Haccepted as (Hsig & _).
  unfold process_signature. rewrite Hwell, Hsig. cbv zeta.
  cbn [default from_option id]. rewrite Hunsign, Hdata.
  change (front ++ "|" ++ path request ++ "|" ++ user_id)
    with (front ++ String "|" (path request ++ String "|" user_id)).
  rewrite (rsplit2_last _ _ _ _ Hpath Huser), String.eqb_refl. cbn [negb].
  rewrite Hdec, Hfound. eexists. reflexivity.
Qed.


End Facts.

(** *** On the stand-ins *)

Import Reference.

Lemma followed_link_run :
  process_signature 1700000100 (request_with signed_parameter) default_max_age
  = (Ok (Some "user #42"%string),
     [Unsign ("https://sentry.example|/account-settings/|" ++ signed_parameter)
        default_max_age;
      GetUser 42]).
Proof. vm_compute. reflexivity. Qed.

Lemma process_signature_user_is_authentic_witness :
  exists payload ts mac t front user_id uid,
    accepted_parameter 1700000100 (request_with signed_parameter) default_max_age
      payload ts mac t
    /\ url_prefix ++ "|" ++ path (request_with signed_parameter) ++ "|" ++ payload
       = front ++ "|" ++ path (request_with signed_parameter) ++ "|" ++ user_id
    /\ mem "|" (path (request_with signed_parameter)) = false
    /\ base36_decode user_id = Ok uid
    /\ get_user uid = Ok (Some "user #42"%string).
Proof.
  exact (process_signature_user_is_authentic (H := collaborators) _ _ _ _ _
           followed_link_run).
Defined.

Lemma process_signature_lookup_only_when_accepted_witness :
  exists payload ts mac t,
    accepted_parameter 1700000100 (request_with signed_parameter) default_max_age
      payload ts mac t
    /\ snd (process_signature 1700000100 (request_with signed_parameter) default_max_age)
       = [Unsign (url_prefix ++ "|" ++ path (request_with signed_parameter) ++ "|" ++
                  payload ++ ":" ++ ts ++ ":" ++ mac) default_max_age;
          GetUser 42].
Proof.
  apply (process_signature_lookup_only_when_accepted (H := collaborators)).
  rewrite followed_link_run. right. left. reflexivity.
Defined.

(** A parameter signed over the payload ["x!"], which is no base-36 number. *)
Lemma process_signature_unusable_id_witness :
  process_signature 1700000100
    (request_with "x!:1r31eq:secret/https.//sentry.example|/account-settings/|x!.1r31eq")
    default_max_age
  = (Ok None,
     [Unsign ("https://sentry.example|/account-settings/|" ++
              "x!:1r31eq:secret/https.//sentry.example|/account-settings/|x!.1r31eq")
        default_max_age]).
Proof.
  assert (Haccepted :
            accepted_parameter (H := collaborators) 1700000100
              (request_with
                 "x!:1r31eq:secret/https.//sentry.example|/account-settings/|x!.1r31eq")
              default_max_age "x!" "1r31eq"
              "secret/https.//sentry.example|/account-settings/|x!.1r31eq" 1700000000).
  { split; [reflexivity|]. split; [reflexivity|]. split; [reflexivity|].
    split; [reflexivity|]. split; [reflexivity|]. unfold default_max_age. lia. }
  exact (proj1 (process_signature_unusable_id (H := collaborators) _ _ _ _ _ _ _
                  Haccepted eq_refl eq_refl) eq_refl).
Defined.

(** The request for the link with its referrer. *)
Lemma process_signature_other_parameters_witness :
  process_signature 1700000100
    {| path := path (request_with signed_parameter);
       GET := <["referrer" := "email"]> (GET (request_with signed_parameter)) |}
    default_max_age
  = process_signature 1700000100 (request_with signed_parameter) default_max_age.
Proof.
  apply (process_signature_other_parameters (H := collaborators)). discriminate.
Defined.

(** The link followed ten days before it was signed, under a limit of a
    minute. *)
Lemma process_signature_earlier_or_longer_witness :
  exists evs',
    process_signature 1699136000 (request_with signed_parameter) 60
    = (Ok (Some "user #42"%string), evs').
Proof.
  apply (process_signature_earlier_or_longer (H := collaborators)
           1700000100 default_max_age 1699136000 60 _ _ _ followed_link_run).
  unfold default_max_age. lia.
Defined.

End LinksignMore.

(** ** The blame fetcher: which errors leave it, what the blames are made of *)

Module BlameMore.
Import Blame BlameFacts BlameSpec.
Local Open Scope list_scope.

Lemma max_by_In {A : Type} (key : A -> Z) (xs : list A) (best : A) :
  In (max_by key best xs) (best :: xs).
Proof.
  destruct (max_by_first_greatest key xs best) as (before & after & Heq & _).
  rewrite Heq. apply in_or_app. right. left. reflexivity.
Qed.

Section Facts.

Context {St : Type} `{ApiClient St} `{GitLab}.

Implicit Types (extra : gmap string PyVal) (w : World St).

(** A commit comes out of a hunk only as [made_from] says. *)
Lemma _create_commit_from_blame_Some item extra c :
  fst (_create_commit_from_blame (item_commit item) extra) = Some c <->
  made_from item c.
Proof.
  unfold _create_commit_from_blame, made_from. split.
  - destruct (item_commit item) as [d|]; [|discriminate].
    destruct (bool_decide _); [discriminate|].
    destruct (dict_get d "id") as [[|x commit_id]|] eqn:Hid; try discriminate.
    destruct (dict_get d "committed_date") as [[|y date]|] eqn:Hdate; try discriminate.
    destruct (parse_datetime _) as [t|] eqn:Hparse; [|discriminate].
    cbn [fst]. intros [= <-]. exists d, (String y date). cbn.
    repeat split; try assumption; try reflexivity; discriminate.
  - intros (d & date & -> & Hid & Hne & Hdate & Hdne & Hparse & Hmsg & Hname & Hmail).
    destruct (bool_decide_reflect (d = ∅)) as [->|_].
    { unfold dict_get in Hid. rewrite lookup_empty in Hid. discriminate. }
    rewrite Hid, Hdate.
    destruct (commitId c) as [|x commit_id] eqn:Hc; [contradiction|].
    destruct date as [|y date]; [contradiction|].
    rewrite Hparse. cbn [fst]. f_equal.
    destruct c. cbn in *. subst. reflexivity.
Qed.

Lemma commits_with_required_info_In items extra c :
  In c (commits_with_required_info items extra) <->
  exists item, In item items /\ made_from item c.
Proof.
  unfold commits_with_required_info.
  induction items as [|item items IH]; cbn [map omap list_omap].
  - split; [intros []|intros (? & [] & _)].
  - destruct (fst (_create_commit_from_blame (item_commit item) extra)) as [c'|] eqn:Hc;
      cbn [id].
    + split.
      * intros [<-|Hin].
        -- exists item. split; [left; reflexivity|].
           apply (_create_commit_from_blame_Some item extra). exact Hc.
        -- apply IH in Hin as (item' & Hin & Hmade). exists item'. split; [right|]; assumption.
      * intros (item' & [<-|Hin] & Hmade).
        -- apply (_create_commit_from_blame_Some _ extra) in Hmade.
           left. congruence.
        -- right. apply IH. exists item'. split; assumption.
    + split.
      * intros Hin. apply IH in Hin as (item' & Hin & Hmade).
        exists item'. split; [right|]; assumption.
      * intros (item' & [<-|Hin] & Hmade).
        -- apply (_create_commit_from_blame_Some _ extra) in Hmade. congruence.
        -- apply IH. exists item'. split; assumption.
Qed.

(** An [ApiError] leaves the loop only as the guard's error, in the turn of
    the first file. *)
Lemma fetch_loop_ApiError num_files extra i files blames w e w' :
  fetch_loop num_files extra i files blames w = (Raise e, w') ->
  is_ApiError e = true ->
  i = O
  /\ exists file rest commit info w1,
       files = file :: rest
       /\ _fetch_file_blame file extra w = (Ok (commit, Some info), w1)
       /\ rate_limit_too_low 0 num_files (Some info) = true
       /\ e = ApiRateLimitedError "Approaching GitLab API rate limit"
       /\ w' = {| client := client w1;
                  log := log w1 ++ rate_limit_events num_files extra info |}.
Proof.
  intros Hloop He.
  assert (Hlater : forall j files' blames' w0,
             fetch_loop num_files extra (S j) files' blames' w0 = (Raise e, w') -> False).
  { intros j files' blames' w0 Hraise.
    destruct (fetch_loop_after_first _ _ _ _ _ _ _ _ (Nat.neq_succ_0 j) Hraise)
      as [Hno _].
    rewrite (Hno e eq_refl) in He. discriminate. }
  destruct i as [|i]; [|exfalso; exact (Hlater _ _ _ _ Hloop)].
  split; [reflexivity|].
  destruct files as [|file rest]; [discriminate|].
  rewrite fetch_loop_cons in Hloop.
  destruct (_fetch_file_blame file extra w) as [[[commit rate_limit_info]|e0] w1]
    eqn:Hfetch.
  - destruct (rate_limit_too_low 0 num_files rate_limit_info) eqn:Hlow;
      [|exfalso; exact (Hlater _ _ _ _ Hloop)].
    destruct rate_limit_info as [info|]; [|discriminate].
    injection Hloop as <- <-.
    exists file, rest, commit, info, w1. repeat split; assumption.
  - destruct (is_ApiError e0) eqn:He0; [exfalso; exact (Hlater _ _ _ _ Hloop)|].
    injection Hloop as -> _. congruence.
Qed.

Lemma rate_limit_too_low_first num_files info :
  rate_limit_too_low 0 num_files (Some info) = true <->
  (1 < num_files)%nat /\ remaining info < 100 - Z.of_nat num_files.
Proof.
  unfold rate_limit_too_low, MINIMUM_REQUESTS. cbn [Nat.eqb andb].
  rewrite andb_true_iff, Nat.ltb_lt, Z.ltb_lt. reflexivity.
Qed.

(** X6: an [ApiError] (the class or a subclass) leaves [fetch_file_blames]
    in one case only: the batch has more than one file, the call for the
    first file succeeded with a rate limit, and what it leaves is less than
    100 minus the number of files; the error is then the guard's
    [ApiRateLimitedError] and the client is as the first call left it. *)
Theorem fetch_file_blames_ApiError_only_from_guard (files : list SourceLineInfo)
    extra w (e : exn) w' :
  fetch_file_blames files extra w = (Raise e, w') ->
  is_ApiError e = true ->
  exists file rest commit info w1,
    files = file :: rest
    /\ (1 < length files)%nat
    /\ _fetch_file_blame file extra w = (Ok (commit, Some info), w1)
    /\ remaining info < 100 - Z.of_nat (length files)
    /\ e = ApiRateLimitedError "Approaching GitLab API rate limit"
    /\ client w' = client w1.
Proof.
  intros Hrun He. unfold fetch_file_blames in Hrun.
  destruct (fetch_loop_ApiError _ _ _ _ _ _ _ _ Hrun He)
    as (_ & file & rest & commit & info & w1 & Hfiles & Hfetch & Hlow & -> & ->).
  apply rate_limit_too_low_first in Hlow as [Hmany Hlow].
  exists file, rest, commit, info, w1. repeat split; assumption.
Qed.

(** X7: a batch of one file is never stopped by the rate limit guard: no
    [ApiError] leaves [fetch_file_blames], however little the response says
    is left. *)
Theorem fetch_file_blames_single_file (file : SourceLineInfo) extra w result w' :
  fetch_file_blames [file] extra w = (result, w') ->
  (forall e, result = Raise e -> is_ApiError e = false)
  /\ (In guard_metric (log w') -> In guard_metric (log w)).
Proof.
  unfold fetch_file_blames. rewrite fetch_loop_cons. cbn [length].
  destruct (_fetch_file_blame file extra w) as [[[commit rate_limit_info]|e0] w1]
    eqn:Hfetch.
  - assert (Hlow : rate_limit_too_low 0 1 rate_limit_info = false)
      by (destruct rate_limit_info; reflexivity).
    rewrite Hlow. cbn [fetch_loop]. unfold ret. intros [= <- <-].
    split; [discriminate|].
    exact (_fetch_file_blame_guard_metric _ _ _ _ _ Hfetch).
  - destruct (is_ApiError e0) eqn:He0.
    + cbn [fetch_loop]. unfold ret. intros [= <- <-]. split; [discriminate|].
      intros Hin. apply (_fetch_file_blame_guard_metric _ _ _ _ _ Hfetch).
      exact (_handle_file_blame_error_guard_metric _ _ _ _ Hin).
    + intros [= <- <-]. split; [intros ? [= <-]; exact He0|].
      exact (_fetch_file_blame_guard_metric _ _ _ _ _ Hfetch).
Qed.

(** X8: the guard compares what is left with 100 minus the number of files,
    so for a batch of 100 files or more, and rate limits that are not
    negative, it never stops the batch: no [ApiError] leaves
    [fetch_file_blames]. *)
Theorem fetch_file_blames_hundred_files (files : list SourceLineInfo) extra w
    result w' :
  (forall response info,
     get_rate_limit_info_from_response response = Some info -> 0 <= remaining info) ->
  (100 <= length files)%nat ->
  fetch_file_blames files extra w = (result, w') ->
  forall e, result = Raise e -> is_ApiError e = false.
Proof.
  intros Hnonneg Hmany Hrun e ->.
  destruct (is_ApiError e) eqn:He; [exfalso|reflexivity].
  unfold fetch_file_blames in Hrun.
  destruct (fetch_loop_ApiError _ _ _ _ _ _ _ _ Hrun He)
    as (_ & file & rest & commit & info & w1 & Hfiles & Hfetch & Hlow & _).
  apply rate_limit_too_low_first in Hlow as [_ Hlow].
  assert (Hinfo : 0 <= remaining info).
  { revert Hfetch. unfold _fetch_file_blame, bind.
    destruct (fetch_response file extra w) as [[response|e0] w0]; [|discriminate].
    destruct response as [items headers|nonempty headers]; [|discriminate].
    destruct (_get_commit_info_from_blame_response (Some items) extra).
    unfold tell, ret. intros [= _ Hinfo _]. exact (Hnonneg _ _ Hinfo). }
  lia.
Qed.

(** The blames that the loop adds are blames of files still to do, in their
    order, and their commits have an id. *)
Lemma fetch_loop_added num_files extra files :
  forall i blames w result w',
    fetch_loop num_files extra i files blames w = (Ok result, w') ->
    exists added,
      result = blames ++ added
      /\ sublist (map source_line added) files
      /\ Forall (fun b => commitId (commit b) <> EmptyString) added.
Proof.
  induction files as [|file rest IH]; intros i blames w result w'.
  - cbn [fetch_loop]. unfold ret. intros [= <- _]. exists [].
    rewrite app_nil_r. repeat split; constructor.
  - rewrite fetch_loop_cons.
    destruct (_fetch_file_blame file extra w) as [[[commit rate_limit_info]|e] w1]
      eqn:Hfetch.
    + destruct (rate_limit_too_low _ _ _); [discriminate|].
      intros Hloop. apply IH in Hloop as (added & -> & Hsub & Hids).
      destruct commit as [commit|].
      * exists (_create_file_blame_info commit file :: added).
        rewrite <- app_assoc. split; [reflexivity|]. split.
        -- cbn [map _create_file_blame_info source_line]. apply sublist_skip. exact Hsub.
        -- constructor; [|exact Hids]. cbn [_create_file_blame_info Blame.commit].
           revert Hfetch. unfold _fetch_file_blame, bind.
           destruct (fetch_response file extra w) as [[response|e0] w0]; [|discriminate].
           destruct response as [items headers|nonempty headers]; [|discriminate].
           destruct (_get_commit_info_from_blame_response (Some items) extra)
             as [selected logged] eqn:Hselect.
           unfold tell, ret. intros [= -> _ _].
           assert (Hin : In commit (commits_with_required_info items extra)).
           { revert Hselect. unfold _get_commit_info_from_blame_response.
             destruct (commits_with_required_info items extra) as [|c cs];
               [discriminate|].
             intros [= <- _]. apply max_by_In. }
           apply commits_with_required_info_In in Hin
             as (item & _ & d & date & _ & _ & Hne & _).
           exact Hne.
      * exists added. split; [reflexivity|]. split; [|exact Hids].
        apply sublist_cons. exact Hsub.
    + destruct (is_ApiError e); [|discriminate].
      intros Hloop. apply IH in Hloop as (added & -> & Hsub & Hids).
      exists added. split; [reflexivity|]. split; [|exact Hids].
      apply sublist_cons. exact Hsub.
Qed.

(** X9: the blames returned are blames of files of the batch, one a file
    at most and in the order of the files: their source lines are a
    sublist of the files. *)
Theorem fetch_file_blames_sublist (files : list SourceLineInfo) extra w
    (blames : list FileBlameInfo) w' :
  fetch_file_blames files extra w = (Ok blames, w') ->
  sublist (map source_line blames) files.
Proof.
  intros Hrun. apply fetch_loop_added in Hrun as (added & -> & Hsub & _).
  exact Hsub.
Qed.

(** X10: every blame returned carries a commit with a non-empty id. *)
Theorem fetch_file_blames_commit_ids (files : list SourceLineInfo) extra w
    (blames : list FileBlameInfo) w' :
  fetch_file_blames files extra w = (Ok blames, w') ->
  Forall (fun b => commitId (commit b) <> EmptyString) blames.
Proof.
  intros Hrun. apply fetch_loop_added in Hrun as (added & -> & _ & Hids).
  exact Hids.
Qed.

(** X11: the commit selected for a response is made from one of its hunks:
    that hunk has a commit with the id of the selected commit, not empty,
    and a committed date that parses to its date; message, author name and
    author email are the hunk's. *)
Theorem selected_commit_made_from_hunk (items : list GitLabFileBlameResponseItem)
    extra (c : CommitInfo) :
  fst (_get_commit_info_from_blame_response (Some items) extra) = Some c ->
  exists item, In item items /\ made_from item c.
Proof.
  unfold _get_commit_info_from_blame_response.
  destruct (commits_with_required_info items extra) as [|c0 cs] eqn:Hcommits;
    [discriminate|].
  cbn [fst]. intros [= <-].
  apply (commits_with_required_info_In items extra). rewrite Hcommits.
  apply max_by_In.
Qed.

(** X12: a response gives no commit exactly when every one of its hunks
    lacks the required information; one hunk with a non-empty id and a
    committed date that parses is enough for a commit. *)
Theorem no_commit_iff_all_lack_info (items : list GitLabFileBlameResponseItem) extra :
  fst (_get_commit_info_from_blame_response (Some items) extra) = None
  <-> Forall lacks_required_info items.
Proof.
  split.
  - unfold _get_commit_info_from_blame_response.
    destruct (commits_with_required_info items extra) as [|c0 cs] eqn:Hcommits;
      [|discriminate].
    intros _. apply List.Forall_forall. intros item Hin.
    unfold lacks_required_info.
    destruct (item_commit item) as [d|] eqn:Hd; [|exact I].
    destruct (dict_get d "id") as [[|x commit_id]|] eqn:Hid;
      try (left; unfold missing; auto; fail).
    destruct (dict_get d "committed_date") as [[|y date]|] eqn:Hdate;
      try (right; left; unfold missing; auto; fail).
    destruct (parse_datetime (String y date)) as [t|] eqn:Hparse;
      [|right; right; eauto].
    exfalso.
    assert (Hc : In {| commitId := String x commit_id; committedDate := t;
                       commitMessage := dict_get d "message";
                       commitAuthorName := dict_get d "author_name";
                       commitAuthorEmail := dict_get d "author_email" |}
                   (commits_with_required_info items extra)).
    { apply commits_with_required_info_In. exists item. split; [exact Hin|].
      exists d, (String y date). cbn.
      repeat split; try assumption; try reflexivity; discriminate. }
    rewrite Hcommits in Hc. destruct Hc.
  - intros Hlacks. unfold _get_commit_info_from_blame_response.
    rewrite (commits_with_required_info_nil items extra Hlacks). reflexivity.
Qed.


(** [fetch_response] in the terms of [BlameSpec]. *)
Lemma fetch_response_eq file extra w :
  fetch_response file extra w =
  match check_cache (client w) (cache_key file) with
  | Some response =>
      if response_truthy response
      then (Ok response,
            {| client := client w;
               log := log w ++
                 [Log Info "sentry.integrations.gitlab.get_blame_for_files.got_cached"
                    extra] |})
      else
        match get (client w) (request_path file) (request_params file) with
        | (Raise e, st) => (Raise e, {| client := st; log := log w |})
        | (Ok r, st) =>
            (Ok r, {| client := set_cache st (cache_key file) r 60; log := log w |})
        end
  | None =>
      match get (client w) (request_path file) (request_params file) with
      | (Raise e, st) => (Raise e, {| client := st; log := log w |})
      | (Ok r, st) =>
          (Ok r, {| client := set_cache st (cache_key file) r 60; log := log w |})
      end
  end.
Proof. reflexivity. Qed.

(** X13: over a cache that gives back what was just stored, the response
    requested for a file is stored for 60 seconds under the key of the
    request, and a second fetch of the same file, if the response is not
    empty, is answered from the cache: the client is not called again and
    the cache hit is logged. *)
Theorem fetch_response_cached_second_time (file : SourceLineInfo) extra w
    (response : ApiResponse) (st : St) :
  check_cache (client w) (cache_key file) = None ->
  get (client w) (request_path file) (request_params file) = (Ok response, st) ->
  check_cache (set_cache st (cache_key file) response 60) (cache_key file)
    = Some response ->
  response_truthy response = true ->
  let w1 := {| client := set_cache st (cache_key file) response 60; log := log w |} in
  fetch_response file extra w = (Ok response, w1)
  /\ fetch_response file extra w1
     = (Ok response,
        {| client := client w1;
           log := log w1 ++
             [Log Info "sentry.integrations.gitlab.get_blame_for_files.got_cached"
                extra] |}).
Proof.
  intros Hmiss Hget Hlaw Htruthy w1. split.
  - rewrite fetch_response_eq, Hmiss, Hget. reflexivity.
  - rewrite fetch_response_eq. cbn [client w1]. rewrite Hlaw, Htruthy. reflexivity.
Qed.

(** X14: an empty response is stored like any other, and never answered
    from the cache: the next fetch of the file calls the client again and
    stores what it answers. *)
Theorem fetch_response_empty_not_cached (file : SourceLineInfo) extra w
    (response response' : ApiResponse) (st st' : St) :
  check_cache (client w) (cache_key file) = None ->
  get (client w) (request_path file) (request_params file) = (Ok response, st) ->
  check_cache (set_cache st (cache_key file) response 60) (cache_key file)
    = Some response ->
  response_truthy response = false ->
  get (set_cache st (cache_key file) response 60) (request_path file)
    (request_params file) = (Ok response', st') ->
  let w1 := {| client := set_cache st (cache_key file) response 60; log := log w |} in
  fetch_response file extra w = (Ok response, w1)
  /\ fetch_response file extra w1
     = (Ok response',
        {| client := set_cache st' (cache_key file) response' 60; log := log w1 |}).
Proof.
  intros Hmiss Hget Hlaw Hfalsy Hget' w1. split.
  - rewrite fetch_response_eq, Hmiss, Hget. reflexivity.
  - rewrite fetch_response_eq. cbn [client w1]. rewrite Hlaw, Hfalsy, Hget'. reflexivity.
Qed.

(** X15: a response that is no sequence of hunks costs the file its blame
    and nothing else: its turn of the loop, the first included, logs the
    error of the file without a metric and goes on to the next file with
    the blames as they were. *)
Theorem wrong_shape_response_skips_file (file : SourceLineInfo) extra w
    (nonempty : bool) (headers : gmap string string) w1 :
  fetch_response file extra w = (Ok (OtherApiResponse nonempty headers), w1) ->
  _fetch_file_blame file extra w
    = (Raise (ApiError None "Response is not in expected format"), w1)
  /\ forall num_files i rest blames,
       fetch_loop num_files extra i (file :: rest) blames w
       = fetch_loop num_files extra (S i) rest blames
           {| client := client w1; log := log w1 ++ [api_error_record file extra] |}.
Proof.
  intros Hresponse.
  assert (Hfetch : _fetch_file_blame file extra w
                   = (Raise (ApiError None "Response is not in expected format"), w1)).
  { unfold _fetch_file_blame, bind. rewrite Hresponse. reflexivity. }
  split; [exact Hfetch|].
  intros num_files i rest blames. rewrite fetch_loop_cons, Hfetch.
  cbn [is_ApiError]. destruct w1 as [st l]. reflexivity.
Qed.

(** What a hunk gives does not depend on [extra]. *)
Lemma _create_commit_from_blame_extra commit extra extra' :
  fst (_create_commit_from_blame commit extra)
  = fst (_create_commit_from_blame commit extra').
Proof.
  unfold _create_commit_from_blame.
  destruct commit as [d|]; [|reflexivity].
  destruct (bool_decide _); [reflexivity|].
  destruct (dict_get d "id") as [[|? ?]|]; try reflexivity.
  destruct (dict_get d "committed_date") as [[|? ?]|]; try reflexivity.
  destruct (parse_datetime _); reflexivity.
Qed.

Lemma _get_commit_info_extra response extra extra' :
  fst (_get_commit_info_from_blame_response response extra)
  = fst (_get_commit_info_from_blame_response response extra').
Proof.
  unfold _get_commit_info_from_blame_response.
  destruct response as [items|]; [|reflexivity].
  assert (Hcommits : commits_with_required_info items extra
                     = commits_with_required_info items extra').
  { unfold commits_with_required_info. f_equal. apply map_ext. intros item.
    apply _create_commit_from_blame_extra. }
  rewrite Hcommits. destruct (commits_with_required_info items extra'); reflexivity.
Qed.

Lemma fetch_response_agree file extra extra' w w' :
  client w = client w' ->
  agree (fetch_response file extra w) (fetch_response file extra' w').
Proof.
  intros Hclient. rewrite !fetch_response_eq, Hclient. unfold agree.
  destruct (check_cache _ _) as [cached|]; [destruct (response_truthy cached)|];
    try (destruct (get _ _ _) as [[r|e] st]; split; reflexivity).
  split; reflexivity.
Qed.

Lemma _fetch_file_blame_agree file extra extra' w w' :
  client w = client w' ->
  agree (_fetch_file_blame file extra w) (_fetch_file_blame file extra' w').
Proof.
  intros Hclient.
  destruct (fetch_response_agree file extra extra' w w' Hclient) as [Hfst Hsnd].
  unfold _fetch_file_blame, bind, agree.
  destruct (fetch_response file extra w) as [[response|e] w0];
    destruct (fetch_response file extra' w') as [[response'|e'] w0'];
    cbn [fst snd] in Hfst, Hsnd; try discriminate.
  - injection Hfst as <-.
    destruct response as [items headers|nonempty headers];
      [|split; [reflexivity|exact Hsnd]].
    pose proof (_get_commit_info_extra (Some items) extra extra') as Hsame.
    destruct (_get_commit_info_from_blame_response (Some items) extra) as [c lg].
    destruct (_get_commit_info_from_blame_response (Some items) extra') as [c' lg'].
    cbn [fst] in Hsame. subst c'. split; [reflexivity|exact Hsnd].
  - injection Hfst as <-. split; [reflexivity|exact Hsnd].
Qed.

Lemma _handle_file_blame_error_client e file extra w :
  client (snd (_handle_file_blame_error e file extra w)) = client w.
Proof.
  unfold _handle_file_blame_error, bind, tell, ret.
  destruct (bool_decide _); reflexivity.
Qed.

Lemma fetch_loop_agree num_files extra extra' files :
  forall i blames w w',
    client w = client w' ->
    agree (fetch_loop num_files extra i files blames w)
          (fetch_loop num_files extra' i files blames w').
Proof.
  induction files as [|file rest IH]; intros i blames w w' Hclient.
  - split; [reflexivity|exact Hclient].
  - rewrite !fetch_loop_cons.
    destruct (_fetch_file_blame_agree file extra extra' w w' Hclient) as [Hfst Hsnd].
    destruct (_fetch_file_blame file extra w) as [[[commit info]|e] w1];
      destruct (_fetch_file_blame file extra' w') as [[[commit' info']|e'] w1'];
      cbn [fst snd] in Hfst, Hsnd; try discriminate.
    + injection Hfst as <- <-.
      destruct (rate_limit_too_low i num_files info); [split; [reflexivity|exact Hsnd]|].
      apply IH. exact Hsnd.
    + injection Hfst as <-.
      destruct (is_ApiError e); [|split; [reflexivity|exact Hsnd]].
      apply IH. rewrite !_handle_file_blame_error_client. exact Hsnd.
Qed.

(** X16: the logging context [extra] reaches the log and nothing else:
    whatever it is, and whatever was logged before, [fetch_file_blames]
    returns the same blames or raises the same exception, and leaves the
    client in the same state. *)
Theorem fetch_file_blames_extra_only_logged (files : list SourceLineInfo)
    extra extra' w w' :
  client w = client w' ->
  fst (fetch_file_blames files extra w) = fst (fetch_file_blames files extra' w')
  /\ client (snd (fetch_file_blames files extra w))
     = client (snd (fetch_file_blames files extra' w')).
Proof.
  intros Hclient. exact (fetch_loop_agree _ _ _ _ _ _ _ _ Hclient).
Qed.



End Facts.

(** *** On the stand-ins *)

Import Reference ReferenceMore.

Lemma index_of_nonneg (c : ascii) (alphabet : string) (d : Z) :
  index_of c alphabet = Some d -> 0 <= d.
Proof.
  revert d. induction alphabet as [|x alphabet IH]; intros d; cbn [index_of];
    [discriminate|].
  destruct (Ascii.eqb x c); [intros [= <-]; lia|].
  destruct (index_of c alphabet) as [d'|]; [|discriminate].
  cbn [option_map]. intros [= <-]. specialize (IH d' eq_refl). lia.
Qed.

Lemma decode_digits_nonneg (alphabet s : string) (acc n : Z) :
  0 <= acc -> decode_digits alphabet s acc = Ok n -> 0 <= n.
Proof.
  revert acc. induction s as [|c s IH]; intros acc Hacc; cbn [decode_digits].
  - intros [= <-]. exact Hacc.
  - destruct (index_of c alphabet) as [d|] eqn:Hd; [|discriminate].
    apply index_of_nonneg in Hd. apply IH. nia.
Qed.

(** The rate limits that the stand-in reads are not negative. *)
Lemma reference_remaining_nonneg (response : ApiResponse) (info : GitLabRateLimitInfo) :
  get_rate_limit_info_from_response response = Some info -> 0 <= remaining info.
Proof.
  cbn [get_rate_limit_info_from_response gitlab].
  destruct (_ !! "RateLimit-Limit" ≫= decimal); [|discriminate].
  destruct (_ !! "RateLimit-Remaining" ≫= decimal) as [n|] eqn:Hremaining;
    [|discriminate].
  destruct (_ !! "RateLimit-Reset" ≫= decimal); [|discriminate].
  destruct (_ !! "RateLimit-Observed" ≫= decimal); [|discriminate].
  intros [= <-]. cbn [remaining].
  destruct (_ !! "RateLimit-Remaining") as [s|]; [|discriminate].
  cbn in Hremaining. unfold decimal, decode in Hremaining.
  destruct s as [|c s]; [discriminate|].
  destruct (decode_digits _ _ 0) as [m|] eqn:Hm; [|discriminate].
  injection Hremaining as <-. exact (decode_digits_nonneg _ _ _ _ (Z.le_refl 0) Hm).
Qed.

Lemma two_files_run :
  fetch_file_blames [file "a.py" 3; file "b.py" 1] ∅ (world "50")
  = (Raise (ApiRateLimitedError "Approaching GitLab API rate limit"),
     snd (fetch_file_blames [file "a.py" 3; file "b.py" 1] ∅ (world "50"))).
Proof. vm_compute. reflexivity. Qed.

Lemma five_files_run :
  fetch_file_blames five_files ∅ (world "500")
  = (Ok (returned (fetch_file_blames five_files ∅ (world "500"))),
     snd (fetch_file_blames five_files ∅ (world "500"))).
Proof. vm_compute. reflexivity. Qed.

Lemma fetch_file_blames_ApiError_only_from_guard_witness :
  exists file' rest commit info w1,
    [file "a.py" 3; file "b.py" 1] = file' :: rest
    /\ (1 < length [file "a.py" 3; file "b.py" 1])%nat
    /\ _fetch_file_blame file' ∅ (world "50") = (Ok (commit, Some info), w1)
    /\ remaining info < 100 - Z.of_nat (length [file "a.py" 3; file "b.py" 1])
    /\ ApiRateLimitedError "Approaching GitLab API rate limit"
       = ApiRateLimitedError "Approaching GitLab API rate limit"
    /\ client (snd (fetch_file_blames [file "a.py" 3; file "b.py" 1] ∅ (world "50")))
       = client w1.
Proof.
  exact (fetch_file_blames_ApiError_only_from_guard _ _ _ _ _ two_files_run eq_refl).
Defined.

(** [a.py] alone, with nothing left of the quota. *)
Lemma fetch_file_blames_single_file_witness :
  ~ In guard_metric (log (snd (fetch_file_blames [file "a.py" 3] ∅ (world "0")))).
Proof.
  intros Hin.
  exact (proj2 (fetch_file_blames_single_file (file "a.py" 3) ∅ (world "0") _ _
                  (surjective_pairing _)) Hin).
Defined.

(** A hundred times [a.py], with nothing left of the quota. *)
Lemma fetch_file_blames_hundred_files_witness :
  match fst (fetch_file_blames (replicate 100 (file "a.py" 3)) ∅ (world "0")) with
  | Ok _ => True
  | Raise e => is_ApiError e = false
  end.
Proof.
  assert (Hmany : (100 <= length (replicate 100 (file "a.py" 3)))%nat)
    by (rewrite length_replicate; lia).
  pose proof (fetch_file_blames_hundred_files (replicate 100 (file "a.py" 3)) ∅
                (world "0") _ _ reference_remaining_nonneg Hmany
                (surjective_pairing _)) as Hno.
  destruct (fst (fetch_file_blames _ _ _)) as [blames|e]; [exact I|].
  exact (Hno e eq_refl).
Defined.

Lemma fetch_file_blames_sublist_witness :
  sublist
    (map source_line (returned (fetch_file_blames five_files ∅ (world "500"))))
    five_files.
Proof. exact (fetch_file_blames_sublist _ _ _ _ _ five_files_run). Defined.

Lemma fetch_file_blames_commit_ids_witness :
  Forall (fun b => commitId (commit b) <> EmptyString)
    (returned (fetch_file_blames five_files ∅ (world "500"))).
Proof. exact (fetch_file_blames_commit_ids _ _ _ _ _ five_files_run). Defined.

Example five_files_blames :
  map (fun b => (path (source_line b), commitId (commit b)))
    (returned (fetch_file_blames five_files ∅ (world "500")))
  = [("a.py", "c2")]%string.
Proof. vm_compute. reflexivity. Qed.

Lemma a_py_selected :
  fst (_get_commit_info_from_blame_response
         (Some [hunk "c1" "100"; hunk "c2" "300"; hunk "c3" "300"]) ∅)
  = Some {| commitId := "c2"; committedDate := 300; commitMessage := None;
            commitAuthorName := None; commitAuthorEmail := None |}.
Proof. vm_compute. reflexivity. Qed.

Lemma selected_commit_made_from_hunk_witness :
  exists item,
    In item [hunk "c1" "100"; hunk "c2" "300"; hunk "c3" "300"]
    /\ made_from item
         {| commitId := "c2"; committedDate := 300; commitMessage := None;
            commitAuthorName := None; commitAuthorEmail := None |}.
Proof. exact (selected_commit_made_from_hunk _ _ _ a_py_selected). Defined.

(** [a.py] fetched twice. *)
Lemma fetch_response_cached_second_time_witness :
  let response :=
    SequenceApiResponse [hunk "c1" "100"; hunk "c2" "300"; hunk "c3" "300"]
      (rate_limit_headers "500") in
  let st := snd (get (client (world "500")) (request_path (file "a.py" 3))
                   (request_params (file "a.py" 3))) in
  let w1 := {| client := set_cache st (cache_key (file "a.py" 3)) response 60;
               log := log (world "500") |} in
  fetch_response (file "a.py" 3) ∅ (world "500") = (Ok response, w1)
  /\ fetch_response (file "a.py" 3) ∅ w1
     = (Ok response,
        {| client := client w1;
           log := log w1 ++
             [Log Info "sentry.integrations.gitlab.get_blame_for_files.got_cached" ∅] |}).
Proof.
  intros response st w1.
  assert (Hmiss : check_cache (client (world "500")) (cache_key (file "a.py" 3)) = None)
    by (vm_compute; reflexivity).
  assert (Hget : get (client (world "500")) (request_path (file "a.py" 3))
                   (request_params (file "a.py" 3)) = (Ok response, st))
    by (vm_compute; reflexivity).
  assert (Hlaw : check_cache (set_cache st (cache_key (file "a.py" 3)) response 60)
                   (cache_key (file "a.py" 3)) = Some response)
    by (vm_compute; reflexivity).
  exact (fetch_response_cached_second_time (file "a.py" 3) ∅ (world "500") response st
           Hmiss Hget Hlaw eq_refl).
Defined.

(** [c.py], whose response is empty, fetched twice. *)
Lemma fetch_response_empty_not_cached_witness :
  let response := SequenceApiResponse [] (rate_limit_headers "500") in
  let st := snd (get (client (world "500")) (request_path (file "c.py" 2))
                   (request_params (file "c.py" 2))) in
  let st' := snd (get (set_cache st (cache_key (file "c.py" 2)) response 60)
                    (request_path (file "c.py" 2)) (request_params (file "c.py" 2))) in
  let w1 := {| client := set_cache st (cache_key (file "c.py" 2)) response 60;
               log := log (world "500") |} in
  fetch_response (file "c.py" 2) ∅ (world "500") = (Ok response, w1)
  /\ fetch_response (file "c.py" 2) ∅ w1
     = (Ok response,
        {| client := set_cache st' (cache_key (file "c.py" 2)) response 60;
           log := log w1 |}).
Proof.
  intros response st st' w1.
  assert (Hmiss : check_cache (client (world "500")) (cache_key (file "c.py" 2)) = None)
    by (vm_compute; reflexivity).
  assert (Hget : get (client (world "500")) (request_path (file "c.py" 2))
                   (request_params (file "c.py" 2)) = (Ok response, st))
    by (vm_compute; reflexivity).
  assert (Hlaw : check_cache (set_cache st (cache_key (file "c.py" 2)) response 60)
                   (cache_key (file "c.py" 2)) = Some response)
    by (vm_compute; reflexivity).
  assert (Hget' : get (set_cache st (cache_key (file "c.py" 2)) response 60)
                    (request_path (file "c.py" 2)) (request_params (file "c.py" 2))
                  = (Ok response, st'))
    by (vm_compute; reflexivity).
  exact (fetch_response_empty_not_cached (file "c.py" 2) ∅ (world "500") response
           response st st' Hmiss Hget Hlaw eq_refl Hget').
Defined.

(** A service that answers with a mapping: two files, no blame, no error. *)
Lemma wrong_shape_response_skips_file_witness :
  _fetch_file_blame (file "a.py" 3) ∅ mapping_world
  = (Raise (ApiError None "Response is not in expected format"),
     snd (fetch_response (file "a.py" 3) ∅ mapping_world)).
Proof.
  assert (Hresponse : fetch_response (file "a.py" 3) ∅ mapping_world
                      = (Ok (OtherApiResponse true ∅),
                         snd (fetch_response (file "a.py" 3) ∅ mapping_world)))
    by (vm_compute; reflexivity).
  exact (proj1 (wrong_shape_response_skips_file _ _ _ _ _ _ Hresponse)).
Defined.

Example mapping_service_gives_no_blame :
  fst (fetch_file_blames [file "a.py" 3; file "b.py" 1] ∅ mapping_world) = Ok [].
Proof. vm_compute. reflexivity. Qed.

(** The same batch under two logging contexts, after different logs. *)
Lemma fetch_file_blames_extra_only_logged_witness :
  fst (fetch_file_blames five_files ∅ (world "500"))
  = fst (fetch_file_blames five_files {[ "organization_id" := VInt 1 ]}
           {| client := client (world "500"); log := [guard_metric] |})
  /\ client (snd (fetch_file_blames five_files ∅ (world "500")))
     = client (snd (fetch_file_blames five_files {[ "organization_id" := VInt 1 ]}
                      {| client := client (world "500"); log := [guard_metric] |})).
Proof.
  exact (fetch_file_blames_extra_only_logged five_files ∅
           {[ "organization_id" := VInt 1 ]} (world "500")
           {| client := client (world "500"); log := [guard_metric] |} eq_refl).
Defined.

End BlameMore.

(** ** The note notification: the escaped text and [str.format] *)

Module NoteMore.
Import PyStr Note NoteFacts PyFormat.

(** Formatting undoes the doubling of the braces, whatever the arguments
    of the format are. *)
Lemma format_escape_braces (fields : string -> Result string) (text : string) :
  format fields (escape_braces text) = Ok text.
Proof.
  unfold format. induction text as [|c text IH]; [reflexivity|].
  cbn [escape_braces].
  destruct (Ascii.eqb c "{") eqn:Hopen.
  - apply Ascii.eqb_eq in Hopen as ->. cbn [scan Ascii.eqb Bool.eqb].
    rewrite IH. reflexivity.
  - destruct (Ascii.eqb c "}") eqn:Hclose.
    + apply Ascii.eqb_eq in Hclose as ->. cbn [scan Ascii.eqb Bool.eqb].
      rewrite IH. reflexivity.
    + cbn [scan]. rewrite Hopen, Hclose, IH. reflexivity.
Qed.

(** X17: the description that [get_description] returns is a format string
    without a replacement field: [str.format], with any arguments, gives
    the text of the note back. *)
Theorem get_description_formats_back (activity : Activity) (text : string)
    (fields : string -> Result string) :
  data activity !! "text" = Some text ->
  exists description,
    get_description activity = Ok (description, None, ∅)
    /\ format fields description = Ok text.
Proof.
  intros Htext. exists (escape_braces text). split.
  - unfold get_description. rewrite Htext, replace_replace_escape. reflexivity.
  - apply format_escape_braces.
Qed.

(** X18: notes of different texts get different descriptions. *)
Theorem get_description_injective (activity activity' : Activity)
    (text text' : string) :
  data activity !! "text" = Some text ->
  data activity' !! "text" = Some text' ->
  text <> text' ->
  get_description activity <> get_description activity'.
Proof.
  intros Htext Htext' Hne. unfold get_description. rewrite Htext, Htext'.
  rewrite !replace_replace_escape. intros [= Hescaped]. apply Hne.
  pose proof (format_escape_braces (fun _ => Ok EmptyString) text) as Hback.
  rewrite Hescaped, format_escape_braces in Hback. congruence.
Qed.

(** The note ["try {x} or }"], formatted with an argument [x]. *)
Lemma get_description_formats_back_witness :
  exists description,
    get_description {| data := {[ "text" := "try {x} or }" ]} |}
    = Ok (description, None, ∅)
    /\ format (fun field => Ok ("<" ++ field ++ ">")) description = Ok "try {x} or }".
Proof.
  exact (get_description_formats_back {| data := {[ "text" := "try {x} or }" ]} |}
           "try {x} or }" (fun field => Ok ("<" ++ field ++ ">")) eq_refl).
Defined.

(** A note and the note that is its description. *)
Lemma get_description_injective_witness :
  get_description {| data := {[ "text" := "a{b}" ]} |}
  <> get_description {| data := {[ "text" := "a{{b}}" ]} |}.
Proof.
  apply (get_description_injective _ _ "a{b}" "a{{b}}"); [reflexivity..|discriminate].
Defined.

(** What the escaping is for: unescaped, the note would be formatted with
    the argument. *)
Example unescaped_note_is_formatted :
  format (fun field => Ok ("<" ++ field ++ ">")) "try {x} or }}" = Ok "try <x> or }"
  /\ format (fun field => Ok ("<" ++ field ++ ">")) "try {x} or }" = Raise ValueError.
Proof. split; reflexivity. Qed.

End NoteMore.
